(** * OrganizationsManager (src/management/OrganizationsManager.js)

    A shallow embedding of the organizations manager of node-auth0 and of the
    collaborators it composes, with the properties its specification states.

    The manager is JavaScript: its arguments are arbitrary JavaScript values,
    it fails by throwing, and everything it does to the outside world is
    [new Auth0RestClient(..)], [new RetryRestClient(..)] and a method call on
    one of the three clients it holds.  The embedding keeps those three
    aspects apart:

    - [JS]       the values the manager inspects ([typeof], truthiness,
                 property reads, [||], [instanceof Function]);
    - [prog]     the manager's code, as a program whose only visible
                 operations are the constructor calls and method calls it
                 makes on its collaborators;
    - [Facade]   what the specification says of the collaborators that are
                 not part of OrganizationsManager.js (utils, Auth0RestClient,
                 RetryRestClient and the rest-facade client underneath), as
                 a handler that gives the operations of [prog] a meaning. *)

From Stdlib Require Import String Ascii List Bool Arith Lia PrimFloat.
Import ListNotations.
Local Open Scope string_scope.
Local Open Scope list_scope.
Set Warnings "-register-all".

(* ===================================================================== *)
(** ** JavaScript values *)
(* ===================================================================== *)

Module JS.

(** The values a caller can hand to the manager.  A number is an IEEE double;
    an object is the ordered list of its own data properties; a function is
    an object that can be called; a promise is known by its identity. *)
Inductive value : Type :=
| VUndefined
| VNull
| VBool (b : bool)
| VNumber (n : float)
| VString (s : string)
| VObject (props : list (string * value))
| VFunction (name : string) (props : list (string * value))
| VPromise (id : nat).

(** The errors that occur: [ArgumentError] is rest-facade's, thrown by the
    manager's own guards; [TypeError] is the engine's (reading a property of
    [undefined] or [null], calling what is not a function); [RequestError] is
    the transport's. *)
Inductive error : Type :=
| ArgumentError (message : string)
| TypeError (message : string)
| RequestError (message : string).

(** How the evaluation of an expression or a call ends. *)
Inductive completion (A : Type) : Type :=
| Normal (a : A)
| Abrupt (e : error).
Arguments Normal {A} a.
Arguments Abrupt {A} e.

(** [typeof v] *)
Definition typeof (v : value) : string :=
  match v with
  | VUndefined => "undefined"
  | VNull => "object"
  | VBool _ => "boolean"
  | VNumber _ => "number"
  | VString _ => "string"
  | VObject _ => "object"
  | VFunction _ _ => "function"
  | VPromise _ => "object"
  end.

(** ToBoolean: [undefined], [null], [false], [+0], [-0], [NaN] and [''] are
    falsy, every other value is truthy. *)
Definition truthy (v : value) : bool :=
  match v with
  | VUndefined => false
  | VNull => false
  | VBool b => b
  | VNumber n => negb (PrimFloat.eqb n PrimFloat.zero || negb (PrimFloat.eqb n n))
  | VString s => negb (String.eqb s "")
  | VObject _ => true
  | VFunction _ _ => true
  | VPromise _ => true
  end.

(** [v === null] and [v === undefined] *)
Definition is_null (v : value) : bool :=
  match v with VNull => true | _ => false end.

Definition is_undefined (v : value) : bool :=
  match v with VUndefined => true | _ => false end.

(** [a || b] *)
Definition or (a b : value) : value := if truthy a then a else b.

(** [v instanceof Function] *)
Definition instanceof_Function (v : value) : bool :=
  match v with VFunction _ _ => true | _ => false end.

(** The first property called [name] in a property list. *)
Fixpoint lookup (name : string) (props : list (string * value)) : option value :=
  match props with
  | [] => None
  | (k, v) :: rest => if String.eqb k name then Some v else lookup name rest
  end.

(** [v.name].  Reading a property of [undefined] or [null] throws a
    TypeError; an object or a function gives its own property or [undefined];
    the names the manager reads ([baseUrl], [headers], [tokenProvider],
    [retry], [id], [connection_id]) are no built-in property of a boolean, a
    number, a string or a promise, so there the read gives [undefined]. *)
Definition get (v : value) (name : string) : completion value :=
  match v with
  | VUndefined => Abrupt (TypeError ("Cannot read property '" ++ name ++ "' of undefined"))
  | VNull => Abrupt (TypeError ("Cannot read property '" ++ name ++ "' of null"))
  | VObject props | VFunction _ props =>
      Normal (match lookup name props with Some x => x | None => VUndefined end)
  | VBool _ | VNumber _ | VString _ | VPromise _ => Normal VUndefined
  end.

(** The [n]-th actual argument of a call; a formal parameter without an
    actual argument is [undefined]. *)
Definition arg (n : nat) (arguments : list value) : value :=
  nth n arguments VUndefined.

(** The object literal [{}]. *)
Definition empty_object : value := VObject [].

End JS.
Import JS.

(* ===================================================================== *)
(** ** Programs over the collaborators *)
(* ===================================================================== *)

(** The two classes the manager instantiates. *)
Inductive class_name : Type := Auth0RestClient | RetryRestClient.

(** The code of the manager, as far as the outside can see it: it returns,
    it throws, it runs [new cls(args)] and goes on with the instance, or it
    runs [recv.meth(args)] and goes on with the result. *)
Inductive prog (A : Type) : Type :=
| Ret (a : A)
| Throw (e : error)
| New (cls : class_name) (args : list value) (k : value -> prog A)
| Invoke (recv : value) (meth : string) (args : list value) (k : value -> prog A).
Arguments Ret {A} a.
Arguments Throw {A} e.
Arguments New {A} cls args k.
Arguments Invoke {A} recv meth args k.

Fixpoint bind {A B : Type} (p : prog A) (f : A -> prog B) : prog B :=
  match p with
  | Ret a => f a
  | Throw e => Throw e
  | New cls args k => New cls args (fun v => bind (k v) f)
  | Invoke recv meth args k => Invoke recv meth args (fun v => bind (k v) f)
  end.

(** An expression that may throw, as a program. *)
Definition eval {A : Type} (c : completion A) : prog A :=
  match c with
  | Normal a => Ret a
  | Abrupt e => Throw e
  end.

Notation "x <- p ;; q" := (bind p (fun x => q))
  (at level 61, p at next level, right associativity).

(** [new cls(args)] and [recv.meth(args)] as the last thing a program does. *)
Definition new (cls : class_name) (args : list value) : prog value :=
  New cls args Ret.

Definition invoke (recv : value) (meth : string) (args : list value) : prog value :=
  Invoke recv meth args Ret.

(** A program that instantiates nothing, whatever its collaborators answer. *)
Inductive no_new {A : Type} : prog A -> Prop :=
| no_new_Ret a : no_new (Ret a)
| no_new_Throw e : no_new (Throw e)
| no_new_Invoke recv meth args k :
    (forall v, no_new (k v)) -> no_new (Invoke recv meth args k).

(* ===================================================================== *)
(** ** The manager *)
(* ===================================================================== *)

(** An instance: [this.organizations], [this.connections], [this.members]. *)
Record manager : Type := {
  organizations : value;
  connections : value;
  members : value
}.

(** A method of the prototype: it gets [this] and the actual arguments. *)
Definition method : Type := manager -> list value -> prog value.

(** A prototype: the methods by name, in the order they were attached. *)
Definition prototype : Type := list (string * method).

(** [var OrganizationsManager = function(options) { .. }].  Once [options]
    is known to be an object, reading its data properties has no effect and
    cannot throw, so [options.headers], [options.tokenProvider] and
    [options.retry], which the source reads at each use, are read once. *)
Definition OrganizationsManager (options : value) : prog manager :=
  if is_null options || negb (String.eqb (typeof options) "object") then
    Throw (ArgumentError "Must provide manager options")
  else
  baseUrl <- eval (get options "baseUrl") ;;
  if is_null baseUrl || is_undefined baseUrl then
    Throw (ArgumentError "Must provide a base URL for the API")
  else
  match baseUrl with
  | VString url =>
      if Nat.eqb (String.length url) 0 then
        Throw (ArgumentError "The provided base URL is invalid")
      else
      headers <- eval (get options "headers") ;;
      let clientOptions :=
        VObject [("headers", headers);
                 ("query", VObject [("repeatParams", VBool false)])] in
      tokenProvider <- eval (get options "tokenProvider") ;;
      retry <- eval (get options "retry") ;;
      auth0RestClient <-
        new Auth0RestClient
          [VString (url ++ "/organizations/:id"); clientOptions; tokenProvider] ;;
      organizations <- new RetryRestClient [auth0RestClient; retry] ;;
      connectionsInRoleClient <-
        new Auth0RestClient
          [VString (url ++ "/organizations/:id/enabled_connections/:connection_id");
           clientOptions; tokenProvider] ;;
      connections <- new RetryRestClient [connectionsInRoleClient; retry] ;;
      membersClient <-
        new Auth0RestClient
          [VString (url ++ "/organizations/:id/members"); clientOptions; tokenProvider] ;;
      members <- new RetryRestClient [membersClient; retry] ;;
      Ret {| organizations := organizations;
             connections := connections;
             members := members |}
  | _ =>
      (* 'string' !== typeof options.baseUrl *)
      Throw (ArgumentError "The provided base URL is invalid")
  end.

(** [OrganizationsManager.prototype.getEnabledConnections] *)
Definition getEnabledConnections : method := fun this arguments =>
  let params := arg 0 arguments in
  let callback := arg 1 arguments in
  invoke (connections this) "getAll" [params; callback].

(** [OrganizationsManager.prototype.getEnabledConnection] *)
Definition getEnabledConnection : method := fun this arguments =>
  let params := arg 0 arguments in
  let callback := arg 1 arguments in
  invoke (connections this) "get" [params; callback].

(** [OrganizationsManager.prototype.addEnabledConnection] *)
Definition addEnabledConnection : method := fun this arguments =>
  let params := arg 0 arguments in
  let data := arg 1 arguments in
  let cb := arg 2 arguments in
  let data := JS.or data empty_object in
  let params := JS.or params empty_object in
  id <- eval (get params "id") ;;
  if negb (truthy id) then
    Throw (ArgumentError "The organizationId passed in params cannot be null or undefined")
  else
  id <- eval (get params "id") ;;
  if negb (String.eqb (typeof id) "string") then
    Throw (ArgumentError "The organization Id has to be a string")
  else
  if truthy cb && instanceof_Function cb then
    invoke (connections this) "create" [params; data; cb]
  else
    invoke (connections this) "create" [params; data].

(** [OrganizationsManager.prototype.removeEnabledConnection] *)
Definition removeEnabledConnection : method := fun this arguments =>
  let params := arg 0 arguments in
  let cb := arg 1 arguments in
  let params := JS.or params empty_object in
  id <- eval (get params "id") ;;
  if negb (truthy id) then
    Throw (ArgumentError "The organization ID passed in params cannot be null or undefined")
  else
  id <- eval (get params "id") ;;
  if negb (String.eqb (typeof id) "string") then
    Throw (ArgumentError "The organization ID has to be a string")
  else
  connection_id <- eval (get params "connection_id") ;;
  if negb (truthy connection_id) then
    Throw (ArgumentError "The connection ID passed in params cannot be null or undefined")
  else
  connection_id <- eval (get params "connection_id") ;;
  if negb (String.eqb (typeof connection_id) "string") then
    Throw (ArgumentError "The connection ID has to be a string")
  else
  if truthy cb && instanceof_Function cb then
    invoke (connections this) "delete" [params; empty_object; cb]
  else
    invoke (connections this) "delete" [params; empty_object].

(* ===================================================================== *)
(** ** The binder of utils, and the prototype *)
(* ===================================================================== *)

(** The pieces of [s] between the occurrences of [sep]. *)
Fixpoint split_on (sep : ascii) (s : string) : list string :=
  match s with
  | EmptyString => [EmptyString]
  | String c rest =>
      if Ascii.eqb c sep then EmptyString :: split_on sep rest
      else match split_on sep rest with
           | piece :: pieces => String c piece :: pieces
           | [] => [String c EmptyString]
           end
  end.

(** [this[name]] for the three properties the constructor sets. *)
Definition property (this : manager) (name : string) : option value :=
  if String.eqb name "organizations" then Some (organizations this)
  else if String.eqb name "connections" then Some (connections this)
  else if String.eqb name "members" then Some (members this)
  else None.

(** [Parent.prototype[name] = m]: a later method of the same name replaces
    the earlier one. *)
Definition attach (Parent : prototype) (name : string) (m : method) : prototype :=
  filter (fun entry => negb (String.eqb (fst entry) name)) Parent ++ [(name, m)].

(** Modelled from the spec: [utils.wrapPropertyMethod], of the module
    [../utils], which OrganizationsManager.js requires.  The specification calls
    it the generic binder that re-attaches a verb of a client onto the
    manager's prototype (section 9, dynamic method re-exposition):
    [wrapPropertyMethod(Parent, name, 'property.method')] attaches to
    [Parent.prototype] a method [name] that calls [this.property.method]
    with the arguments it was given and returns what that call returns. *)
Definition wrapPropertyMethod (Parent : prototype) (name propertyMethod : string)
  : prototype :=
  attach Parent name (fun this arguments =>
    match split_on "."%char propertyMethod with
    | [prop; meth] =>
        match property this prop with
        | Some client => invoke client meth arguments
        | None =>
            Throw (TypeError ("Cannot read property '" ++ meth ++ "' of undefined"))
        end
    | _ => Throw (TypeError ("this." ++ propertyMethod ++ " is not a function"))
    end).

(** [OrganizationsManager.prototype], after the module has been loaded: the
    nine attachments of the source file, in its order. *)
Definition OrganizationsManager_prototype : prototype :=
  let P := [] in
  let P := wrapPropertyMethod P "create" "organizations.create" in
  let P := wrapPropertyMethod P "getAll" "organizations.getAll" in
  let P := wrapPropertyMethod P "get" "organizations.get" in
  let P := wrapPropertyMethod P "update" "organizations.patch" in
  let P := wrapPropertyMethod P "delete" "organizations.delete" in
  let P := attach P "getEnabledConnections" getEnabledConnections in
  let P := attach P "getEnabledConnection" getEnabledConnection in
  let P := attach P "addEnabledConnection" addEnabledConnection in
  let P := attach P "removeEnabledConnection" removeEnabledConnection in
  P.

(** The method [name] of a prototype. *)
Fixpoint find_method (name : string) (P : prototype) : option method :=
  match P with
  | [] => None
  | (k, m) :: rest => if String.eqb k name then Some m else find_method name rest
  end.

(** [this.name(arguments)] on a manager. *)
Definition call (name : string) (this : manager) (arguments : list value)
  : prog value :=
  match find_method name OrganizationsManager_prototype with
  | Some m => m this arguments
  | None => Throw (TypeError ("manager." ++ name ++ " is not a function"))
  end.

(** The names a manager answers to. *)
Definition method_names : list string := map fst OrganizationsManager_prototype.

(* ===================================================================== *)
(** ** Endpoint templates *)
(* ===================================================================== *)

(** Modelled from the spec: the part of the transport that writes a value
    into a path.  Section 4.1: a value is forwarded as it is, after an
    encoding that is the transport's and out of scope.  A string is written
    as it stands; how a value that is not a string is written is the
    transport's, and is taken as a parameter. *)
Class Transport : Type := { render : value -> string }.

Module Template.

(** Modelled from the spec: an endpoint template (sections 2 and 3), a path
    whose segments are fixed text or a placeholder [:name]. *)
Inductive segment : Type :=
| Literal (text : string)
| Placeholder (name : string).

(** Modelled from the spec: the segments of a template are the pieces
    between its separators; a piece that starts with a colon is a
    placeholder. *)
Definition segment_of (piece : string) : segment :=
  match piece with
  | String ":"%char name => Placeholder name
  | _ => Literal piece
  end.

Definition parse (template : string) : list segment :=
  map segment_of (split_on "/"%char template).

Definition is_placeholder (s : segment) : bool :=
  match s with Placeholder _ => true | Literal _ => false end.

Section Resolution.

Context {T : Transport}.

(** Modelled from the spec: the value a parameter mapping has for a
    placeholder, as the path will show it (section 4.1).  A name that is
    absent or whose value is [undefined] or [null] has no value, and an empty
    string counts as missing.  Any other value is substituted: a string as it
    stands, a value that is not a string as the transport writes it. *)
Definition text_of (params : value) (name : string) : option string :=
  match get params name with
  | Normal VUndefined | Normal VNull => None
  | Normal (VString s) => if String.eqb s "" then None else Some s
  | Normal v => Some (render v)
  | Abrupt _ => None
  end.

(** Modelled from the spec: the resolution of a template, which is done by
    the rest-facade client under Auth0RestClient and is not in
    OrganizationsManager.js.  Section 4.1: placeholders are scanned from left
    to right; one that has a non-empty value is replaced by it; one that has
    none is dropped together with the separator before it when nothing but
    placeholders follow it, and is an error otherwise. *)
Fixpoint resolve_segments (params : value) (segs : list segment)
  : completion (list string) :=
  match segs with
  | [] => Normal []
  | Literal text :: rest =>
      match resolve_segments params rest with
      | Normal pieces => Normal (text :: pieces)
      | Abrupt e => Abrupt e
      end
  | Placeholder name :: rest =>
      match text_of params name with
      | Some text =>
          match resolve_segments params rest with
          | Normal pieces => Normal (text :: pieces)
          | Abrupt e => Abrupt e
          end
      | None =>
          if forallb is_placeholder rest then resolve_segments params rest
          else Abrupt (ArgumentError ("Missing value for the placeholder " ++ name))
      end
  end.

Definition resolve (template : string) (params : value) : completion string :=
  match resolve_segments params (parse template) with
  | Normal pieces => Normal (String.concat "/" pieces)
  | Abrupt e => Abrupt e
  end.

End Resolution.

End Template.

(* ===================================================================== *)
(** ** Running a program against collaborators *)
(* ===================================================================== *)

(** The five verbs of a client, under the names the manager calls them by;
    [patch] is the verb the specification calls update. *)
Inductive verb : Type := Create | GetAll | Get | Patch | Delete.

Inductive http_method : Type := POST | GET | PATCH | DELETE.

(** The request a client sends. *)
Record request : Type := {
  req_method : http_method;
  req_url : string;
  req_body : value;
  req_options : value;
  req_retry : value
}.

(** The two styles of a call: the result goes to the callback the caller
    gave, or to the promise the call returned. *)
Inductive reply : Type :=
| ByCallback (cb : value)
| ByPromise (id : nat).

(** What a client does with a call once it has returned: it sends a request,
    or it refuses the call with an error it found before sending anything. *)
Inductive attempt : Type :=
| Send (r : request)
| Refuse (e : error).

(** What can be observed of a run, in the order it happens. *)
Inductive event : Type :=
| ENew (cls : class_name) (args : list value)
| EInvoke (recv : value) (meth : string) (args : list value)
| EPending (how : reply) (what : attempt).

(** The world a program runs in: what has happened so far, and how many
    promises have been made. *)
Record world : Type := {
  events : list event;
  promises : nat
}.

Definition emit (e : event) (w : world) : world :=
  {| events := events w ++ [e]; promises := promises w |}.

(** The collaborators: what [new cls(args)] returns and what
    [recv.meth(args)] returns, each in a world and with its effect on it. *)
Record collaborators : Type := {
  construct : class_name -> list value -> world -> completion value * world;
  respond : value -> string -> list value -> world -> completion value * world
}.

(** A program run against collaborators.  Each operation is recorded when it
    is made; what a collaborator throws ends the program. *)
Fixpoint run {A : Type} (c : collaborators) (p : prog A) (w : world)
  : completion A * world :=
  match p with
  | Ret a => (Normal a, w)
  | Throw e => (Abrupt e, w)
  | New cls args k =>
      match construct c cls args (emit (ENew cls args) w) with
      | (Normal v, w') => run c (k v) w'
      | (Abrupt e, w') => (Abrupt e, w')
      end
  | Invoke recv meth args k =>
      match respond c recv meth args (emit (EInvoke recv meth args) w) with
      | (Normal v, w') => run c (k v) w'
      | (Abrupt e, w') => (Abrupt e, w')
      end
  end.

(* ===================================================================== *)
(** ** The collaborators of the specification *)
(* ===================================================================== *)

Module Facade.

(** Modelled from the spec: an instance of Auth0RestClient, the templated
    resource client, of the module [../Auth0RestClient], which
    OrganizationsManager.js requires.  It owns one endpoint template and the
    options and token provider it was built with (sections 2 and 3). *)
Definition auth0RestClient (resourceUrl options provider : value) : value :=
  VObject [("resourceUrl", resourceUrl); ("options", options); ("provider", provider)].

(** Modelled from the spec: an instance of RetryRestClient, the retry
    decorator, of the module [../RetryRestClient], which
    OrganizationsManager.js requires.  It wraps one templated client and
    holds the retry policy, which it takes as it is given (sections 2, 3 and
    4.3). *)
Definition retryRestClient (restClient retry : value) : value :=
  VObject [("restClient", restClient); ("retry", retry)].

(** Modelled from the spec: the two constructors.  The specification states
    no way for them to fail. *)
Definition construct (cls : class_name) (args : list value) (w : world)
  : completion value * world :=
  match cls with
  | Auth0RestClient => (Normal (auth0RestClient (arg 0 args) (arg 1 args) (arg 2 args)), w)
  | RetryRestClient => (Normal (retryRestClient (arg 0 args) (arg 1 args)), w)
  end.

(** Modelled from the spec: the verbs of a client (section 4.2) and the
    HTTP method each sends; [patch] is the partial update. *)
Definition verb_of (meth : string) : option verb :=
  if String.eqb meth "create" then Some Create
  else if String.eqb meth "getAll" then Some GetAll
  else if String.eqb meth "get" then Some Get
  else if String.eqb meth "patch" then Some Patch
  else if String.eqb meth "delete" then Some Delete
  else None.

Definition method_of (v : verb) : http_method :=
  match v with
  | Create => POST
  | GetAll => GET
  | Get => GET
  | Patch => PATCH
  | Delete => DELETE
  end.

(** Modelled from the spec: the callback of a call is its last argument when
    that is a function (section 9, the implicit last-argument-is-callback
    API); the arguments before it are the payload. *)
Definition split_callback (args : list value) : list value * option value :=
  match rev args with
  | VFunction name props :: front => (rev front, Some (VFunction name props))
  | _ => (args, None)
  end.

(** Modelled from the spec: the parameters and the body among the payload.
    [create] called with the payload alone sends it as the body, the
    identifier portion being absent (sections 4.2 and 4.4, create(data, cb));
    every other call has the parameters first and the body second. *)
Definition params_and_data (v : verb) (payload : list value) : value * value :=
  match v, payload with
  | Create, [data] => (empty_object, data)
  | _, _ => (arg 0 payload, arg 1 payload)
  end.

(** Modelled from the spec: the template, options and retry policy of a
    retry-decorated client. *)
Definition template_of (recv : value) : option (string * value * value) :=
  match get recv "restClient", get recv "retry" with
  | Normal inner, Normal retry =>
      match get inner "resourceUrl", get inner "options" with
      | Normal (VString template), Normal options => Some (template, options, retry)
      | _, _ => None
      end
  | _, _ => None
  end.

(** The first placeholder of a template: the identifier of the resource. *)
Definition first_placeholder (segs : list Template.segment) : option string :=
  match filter Template.is_placeholder segs with
  | Template.Placeholder name :: _ => Some name
  | _ => None
  end.

Section Verbs.

Context {T : Transport}.

(** Modelled from the spec: the path of a call.  Section 4.1 for every verb;
    [get] moreover needs the identifier placeholder of its template to have
    a value (section 4.2, get resolves the item form). *)
Definition resolve_for (v : verb) (template : string) (params : value)
  : completion string :=
  match v, first_placeholder (Template.parse template) with
  | Get, Some name =>
      match Template.text_of params name with
      | Some _ => Template.resolve template params
      | None => Abrupt (ArgumentError ("Missing value for the placeholder " ++ name))
      end
  | _, _ => Template.resolve template params
  end.

(** Modelled from the spec: what a client does with the payload of a call
    (section 4.2): it resolves its template with the parameters and sends
    the body with the verb's method, or it finds the call unresolvable. *)
Definition attempt_for (template : string) (options retry : value) (v : verb)
  (payload : list value) : attempt :=
  let (params, data) := params_and_data v payload in
  match resolve_for v template params with
  | Normal url =>
      Send {| req_method := method_of v; req_url := url; req_body := data;
              req_options := options; req_retry := retry |}
  | Abrupt e => Refuse e
  end.

(** Modelled from the spec: a verb of a client, once the client and the verb
    are known (sections 4.2 and 7).  With a callback the call returns
    [undefined]; without one it returns a new promise.  Either way the call
    itself does not throw: the request is sent, or the error found while
    resolving the template is kept for the callback or the promise. *)
Definition serve (template : string) (options retry : value) (v : verb)
  (args : list value) (w : world) : completion value * world :=
  let (payload, callback) := split_callback args in
  let what := attempt_for template options retry v payload in
  match callback with
  | Some cb => (Normal VUndefined, emit (EPending (ByCallback cb) what) w)
  | None =>
      let id := promises w in
      (Normal (VPromise id),
       {| events := events w ++ [EPending (ByPromise id) what];
          promises := S id |})
  end.

(** Modelled from the spec: [recv.meth(args)] on a retry-decorated client
    (section 4.3: the decorator has the verbs of the client it wraps, with
    the same arguments and results). *)
Definition respond (recv : value) (meth : string) (args : list value) (w : world)
  : completion value * world :=
  match template_of recv, verb_of meth with
  | Some (template, options, retry), Some v => serve template options retry v args w
  | _, _ => (Abrupt (TypeError ("client." ++ meth ++ " is not a function")), w)
  end.

Definition spec : collaborators :=
  Build_collaborators construct respond.

End Verbs.

End Facade.

(* ===================================================================== *)
(** ** The vocabulary of the statements *)
(* ===================================================================== *)

(** [v.name] where a missing [v] has no properties: [undefined] when [v] is
    [undefined] or [null]. *)
Definition field (v : value) (name : string) : value :=
  match get v name with
  | Normal x => x
  | Abrupt _ => VUndefined
  end.

(** An object in the sense of the constructor's first guard. *)
Definition is_an_object (v : value) : Prop :=
  v <> VNull /\ typeof v = "object".

Definition nonempty_string (v : value) : Prop :=
  exists s, v = VString s /\ s <> "".

(** Options the constructor accepts, and options it does not. *)
Definition valid_options (options : value) : Prop :=
  is_an_object options /\ nonempty_string (field options "baseUrl").

Definition invalid_options (options : value) : Prop :=
  ~ is_an_object options \/ ~ nonempty_string (field options "baseUrl").

(** The method set the documentation of the manager lists. *)
Definition documented_methods : list string :=
  ["create"; "getAll"; "get"; "update"; "delete";
   "getEnabledConnections"; "getEnabledConnection";
   "addEnabledConnection"; "removeEnabledConnection"].


(** The identifiers a guarded method insists on: present, a string, and not
    empty (an empty identifier counts as missing). *)
Definition identifier (params : value) (name : string) : bool :=
  String.eqb (typeof (field params name)) "string" && truthy (field params name).


(** The three templates under a base URL. *)
Definition organizations_template (baseUrl : string) : string :=
  baseUrl ++ "/organizations/:id".

Definition connections_template (baseUrl : string) : string :=
  baseUrl ++ "/organizations/:id/enabled_connections/:connection_id".

Definition members_template (baseUrl : string) : string :=
  baseUrl ++ "/organizations/:id/members".

(** The options every client of a manager is built with. *)
Definition client_options (options : value) : value :=
  VObject [("headers", field options "headers");
           ("query", VObject [("repeatParams", VBool false)])].

(** The retry-decorated client the collaborators of the specification build
    for a template. *)
Definition client_for (options : value) (template : string) : value :=
  Facade.retryRestClient
    (Facade.auth0RestClient (VString template) (client_options options)
       (field options "tokenProvider"))
    (field options "retry").

(** The manager they build from options whose base URL is [baseUrl]. *)
Definition manager_for (options : value) (baseUrl : string) : manager :=
  {| organizations := client_for options (organizations_template baseUrl);
     connections := client_for options (connections_template baseUrl);
     members := client_for options (members_template baseUrl) |}.

(** A base URL none of whose segments is a placeholder. *)
Definition plain (baseUrl : string) : bool :=
  forallb (fun s => negb (Template.is_placeholder s)) (Template.parse baseUrl).

(** A world in which nothing has happened yet. *)
Definition initial : world := {| events := []; promises := 0 |}.

(** The construction the specification describes (section 4.4): one
    templated client per template, each wrapped by the retry decorator as
    soon as it is built. *)
Definition decorated {A : Type} (options : value) (template : string)
  (k : value -> prog A) : prog A :=
  New Auth0RestClient
    [VString template; client_options options; field options "tokenProvider"]
    (fun restClient =>
       New RetryRestClient [restClient; field options "retry"] k).

Definition three_clients (options : value) (baseUrl : string) : prog manager :=
  decorated options (organizations_template baseUrl) (fun o =>
  decorated options (connections_template baseUrl) (fun c =>
  decorated options (members_template baseUrl) (fun m =>
  Ret {| organizations := o; connections := c; members := m |}))).

(** The events of that construction under the collaborators of the
    specification. *)
Definition decoration (options : value) (template : string) : list event :=
  [ENew Auth0RestClient
     [VString template; client_options options; field options "tokenProvider"];
   ENew RetryRestClient
     [Facade.auth0RestClient (VString template) (client_options options)
        (field options "tokenProvider");
      field options "retry"]].


(** The arguments after which a guarded method passes its callback on: the
    callback itself when it is a function, nothing otherwise. *)
Definition passed_on (cb : value) : list value :=
  if truthy cb && instanceof_Function cb then [cb] else [].

(** The text of a segment of a template, as it was written. *)
Definition written (s : Template.segment) : string :=
  match s with
  | Template.Literal text => text
  | Template.Placeholder name => String ":"%char name
  end.

(** Sample inputs. *)
Module Sample.

Definition baseUrl : string := "https://tenant.example/api/v2".

Definition options : value :=
  VObject [("baseUrl", VString baseUrl);
           ("headers", VObject [("x-request-source", VString "test")]);
           ("retry", VObject [("enabled", VBool true)])].

Definition this : manager := manager_for options baseUrl.

Definition cb : value := VFunction "cb" [].

Definition org1 : value := VObject [("id", VString "org1")].

Definition org1_c1 : value :=
  VObject [("id", VString "org1"); ("connection_id", VString "c1")].

Definition data : value := VObject [("connection_id", VString "c1")].

Definition new_name : value := VObject [("name", VString "New name")].

(** A world in which seven promises have already been made. *)
Definition later : world := {| events := []; promises := 7 |}.

(** A transport that writes a boolean as [true] or [false] and any other
    value that is not a string as its type. *)
Definition transport : Transport :=
  {| render := fun v =>
       match v with
       | VBool true => "true"
       | VBool false => "false"
       | _ => typeof v
       end |}.

End Sample.

(** How many instances of a class were built among some events. *)
Definition built (cls : class_name) (evs : list event) : nat :=
  length (filter (fun e => match e, cls with
                           | ENew Auth0RestClient _, Auth0RestClient => true
                           | ENew RetryRestClient _, RetryRestClient => true
                           | _, _ => false
                           end) evs).

(** The parameters a call of a verb resolves its template with. *)
Definition params_of (v : verb) (args : list value) : value :=
  fst (Facade.params_and_data v (fst (Facade.split_callback args))).

Section Styles.

Context {T : Transport}.



End Styles.


(* ===================================================================== *)
(** ** Construction against arbitrary collaborators *)
(* ===================================================================== *)

(** The arguments the constructor gives to [new Auth0RestClient] for a
    template. *)
Definition templated_args (options : value) (template : string) : list value :=
  [VString template; client_options options; field options "tokenProvider"].

(** One templated client and its retry decorator, built one after the other
    by the collaborators [c] from the world [w]: both constructors return,
    [client] is what [new RetryRestClient] returned and [w'] is the world it
    left. *)
Definition decorates (c : collaborators) (options : value) (template : string)
  (w : world) (client : value) (w' : world) : Prop :=
  exists restClient w1,
    construct c Auth0RestClient (templated_args options template)
      (emit (ENew Auth0RestClient (templated_args options template)) w)
    = (Normal restClient, w1)
    /\ construct c RetryRestClient [restClient; field options "retry"]
         (emit (ENew RetryRestClient [restClient; field options "retry"]) w1)
       = (Normal client, w').

(** The messages of the guards, as the source spells them. *)
Module Message.

Definition no_options : string := "Must provide manager options".
Definition no_base_url : string := "Must provide a base URL for the API".
Definition bad_base_url : string := "The provided base URL is invalid".

Definition add_no_id : string :=
  "The organizationId passed in params cannot be null or undefined".
Definition add_bad_id : string := "The organization Id has to be a string".

Definition remove_no_id : string :=
  "The organization ID passed in params cannot be null or undefined".
Definition remove_bad_id : string := "The organization ID has to be a string".
Definition remove_no_connection : string :=
  "The connection ID passed in params cannot be null or undefined".
Definition remove_bad_connection : string := "The connection ID has to be a string".

End Message.

(** More sample inputs. *)
Module Sample2.

(** Collaborators whose retry decorator cannot be built. *)
Definition without_retry : collaborators :=
  {| construct := fun cls args w =>
       match cls with
       | Auth0RestClient => Facade.construct cls args w
       | RetryRestClient =>
           (Abrupt (ArgumentError "Must provide enabled boolean value"), w)
       end;
     respond := Facade.respond (T := Sample.transport) |}.

(** Options with fields the constructor does not read. *)
Definition noisy_options : value :=
  VObject [("query", VObject [("repeatParams", VBool true)]);
           ("baseUrl", VString Sample.baseUrl);
           ("headers", VObject [("x-request-source", VString "test")]);
           ("retry", VObject [("enabled", VBool true)]);
           ("timeout", VNumber 5%float)].

(** A function that carries a base URL. *)
Definition callable_options : value :=
  VFunction "options" [("baseUrl", VString Sample.baseUrl)].

End Sample2.

(* ===================================================================== *)
(** ** Properties *)
(* ===================================================================== *)

(** Everything below holds whatever the transport writes for a value that
    is not a string. *)
Section Properties.

Context {T : Transport}.

(* ===================================================================== *)
(** ** Lemmas on values *)
(* ===================================================================== *)

Lemma object_cases (v : value) :
  is_an_object v -> (exists props, v = VObject props) \/ (exists id, v = VPromise id).
Proof.
  intros [Hnull Htype].
  destruct v; simpl in Htype; try discriminate; try congruence; eauto.
Qed.

Lemma is_an_object_dec (v : value) :
  is_an_object v <-> (is_null v || negb (String.eqb (typeof v) "object")) = false.
Proof.
  unfold is_an_object.
  destruct v; simpl; split; intros H; try discriminate; try tauto;
    try (destruct H; congruence); split; congruence.
Qed.

Lemma length_nonempty (s : string) : s <> "" -> Nat.eqb (String.length s) 0 = false.
Proof. destruct s; [congruence | reflexivity]. Qed.

Lemma eqb_nonempty (s : string) : s <> "" -> String.eqb s "" = false.
Proof. intros H. apply String.eqb_neq. exact H. Qed.

(** After [params || {}] a property read cannot throw, and reads what
    [params] has. *)
Lemma get_defaulted (params : value) (name : string) :
  get (JS.or params empty_object) name = Normal (field params name).
Proof.
  unfold JS.or, field.
  destruct params; simpl; try reflexivity;
    match goal with |- context [if ?b then _ else _] => destruct b end;
    reflexivity.
Qed.

(** A value with a truthy property is its own default. *)
Lemma or_with_field (params : value) (name : string) :
  truthy (field params name) = true -> JS.or params empty_object = params.
Proof.
  unfold JS.or, field.
  destruct params; simpl; try discriminate; try reflexivity.
Qed.

Lemma identifier_spec (params : value) (name : string) :
  identifier params name = true <->
  exists s, field params name = VString s /\ s <> "".
Proof.
  unfold identifier. split.
  - intros H. apply andb_true_iff in H. destruct H as [Ht Hs].
    destruct (field params name); simpl in Ht; try discriminate.
    exists s. split; [reflexivity|].
    simpl in Hs. intros ->. discriminate.
  - intros (s & -> & Hs). simpl. rewrite (eqb_nonempty _ Hs). reflexivity.
Qed.

(* ===================================================================== *)
(** ** Construction *)
(* ===================================================================== *)

Lemma options_cases (options : value) :
  invalid_options options \/ valid_options options.
Proof.
  unfold invalid_options, valid_options.
  destruct (is_null options || negb (String.eqb (typeof options) "object")) eqn:G.
  - left. left. intros H. apply is_an_object_dec in H. congruence.
  - apply is_an_object_dec in G.
    destruct (field options "baseUrl") eqn:F;
      try (left; right; intros (s & Hs & _); discriminate Hs).
    destruct s as [|a s].
    + left. right. intros (s' & Hs & Hne). inversion Hs. congruence.
    + right. split; [exact G|]. exists (String a s). split; [reflexivity | discriminate].
Qed.

Lemma invalid_options_throw (options : value) :
  invalid_options options ->
  exists message, OrganizationsManager options = Throw (ArgumentError message).
Proof.
  intros Hinv. unfold OrganizationsManager.
  destruct (is_null options || negb (String.eqb (typeof options) "object")) eqn:G.
  - eexists. reflexivity.
  - apply is_an_object_dec in G.
    destruct Hinv as [H | H]; [tauto|].
    destruct (object_cases _ G) as [[props ->] | [id ->]].
    + unfold field in H. simpl in H. simpl.
      destruct (lookup "baseUrl" props) as [b|]; simpl.
      * destruct b; simpl; try (eexists; reflexivity).
        destruct s as [|a s]; simpl; [eexists; reflexivity|].
        exfalso. apply H. exists (String a s). split; [reflexivity | discriminate].
      * eexists. reflexivity.
    + simpl. eexists. reflexivity.
Qed.

Lemma valid_options_build (options : value) (baseUrl : string) :
  is_an_object options ->
  field options "baseUrl" = VString baseUrl -> baseUrl <> "" ->
  OrganizationsManager options = three_clients options baseUrl.
Proof.
  intros Hobj Hurl Hne.
  destruct (object_cases _ Hobj) as [[props ->] | [id ->]]; [|discriminate Hurl].
  unfold field in Hurl. simpl in Hurl.
  unfold OrganizationsManager. simpl. rewrite Hurl. simpl.
  rewrite (length_nonempty _ Hne). reflexivity.
Qed.

Lemma run_three_clients (options : value) (baseUrl : string) (w : world) :
  run Facade.spec (three_clients options baseUrl) w =
  (Normal (manager_for options baseUrl),
   {| events := events w
                ++ decoration options (organizations_template baseUrl)
                ++ decoration options (connections_template baseUrl)
                ++ decoration options (members_template baseUrl);
      promises := promises w |}).
Proof.
  unfold three_clients, decorated, decoration, manager_for, client_for.
  simpl. unfold emit. simpl. repeat rewrite <- app_assoc. reflexivity.
Qed.

(** C1.  The constructor is all or nothing.  When [options] is [null] or not
    an object, or when [options.baseUrl] is [null], [undefined], not a string
    or the empty string, [new OrganizationsManager(options)] is a throw of an
    ArgumentError and nothing else: whatever the collaborators are, running
    it leaves the world as it was, so no client has been built.  When
    [options] is an object whose [baseUrl] is a non-empty string,
    construction returns a manager with its three clients, and the methods
    of a manager are exactly the documented ones.  Every [options] is of one
    of the two kinds, and whatever the collaborators are, a manager is only
    ever returned for options of the second kind. *)
Theorem construction_all_or_nothing (options : value) :
  (invalid_options options \/ valid_options options)
  /\
  (forall c w m w',
     run c (OrganizationsManager options) w = (Normal m, w') -> valid_options options)
  /\
  (invalid_options options ->
   exists message,
     OrganizationsManager options = Throw (ArgumentError message) /\
     forall c w,
       run c (OrganizationsManager options) w = (Abrupt (ArgumentError message), w))
  /\
  (valid_options options ->
   exists baseUrl,
     field options "baseUrl" = VString baseUrl /\
     (forall w, exists w',
        run Facade.spec (OrganizationsManager options) w =
        (Normal (manager_for options baseUrl), w')) /\
     method_names = documented_methods /\
     forall name, In name documented_methods ->
       exists m, find_method name OrganizationsManager_prototype = Some m).
Proof.
  split; [apply options_cases|]. split; [|split].
  - intros c w m w' Hrun.
    destruct (options_cases options) as [Hinv | Hval]; [|exact Hval].
    destruct (invalid_options_throw _ Hinv) as [message E].
    rewrite E in Hrun. discriminate Hrun.
  - intros Hinv. destruct (invalid_options_throw _ Hinv) as [message E].
    exists message. split; [exact E|]. intros c w. rewrite E. reflexivity.
  - intros Hval. destruct Hval as [Hobj (baseUrl & Hurl & Hne)].
    exists baseUrl. split; [exact Hurl|]. split; [|split].
    + intros w. rewrite (valid_options_build _ _ Hobj Hurl Hne).
      rewrite run_three_clients. eexists. reflexivity.
    + reflexivity.
    + intros name Hin. simpl in Hin.
      repeat (destruct Hin as [<- | Hin]; [eexists; reflexivity|]).
      contradiction.
Qed.

(* ===================================================================== *)
(** ** Lemmas on templates *)
(* ===================================================================== *)

Section Splitting.

Variable sep : ascii.

Lemma split_on_nonempty (s : string) : split_on sep s <> [].
Proof.
  destruct s as [|c s]; simpl; [discriminate|].
  destruct (Ascii.eqb c sep); [discriminate|].
  destruct (split_on sep s); discriminate.
Qed.

Lemma split_on_app (s1 s2 : string) :
  split_on sep (s1 ++ String sep s2) = split_on sep s1 ++ split_on sep s2.
Proof.
  induction s1 as [|c s1 IH]; simpl.
  - rewrite Ascii.eqb_refl. reflexivity.
  - destruct (Ascii.eqb c sep); [rewrite IH; reflexivity|].
    rewrite IH.
    destruct (split_on sep s1) eqn:E; [|reflexivity].
    exfalso. exact (split_on_nonempty _ E).
Qed.

Lemma concat_split_on (s : string) :
  String.concat (String sep "") (split_on sep s) = s.
Proof.
  induction s as [|c s IH]; simpl; [reflexivity|].
  destruct (Ascii.eqb c sep) eqn:E.
  - apply Ascii.eqb_eq in E. subst c.
    destruct (split_on sep s) eqn:F; [exfalso; exact (split_on_nonempty _ F)|].
    simpl in *. rewrite IH. reflexivity.
  - destruct (split_on sep s) as [|piece pieces] eqn:F;
      [exfalso; exact (split_on_nonempty _ F)|].
    destruct pieces; simpl in *; rewrite <- IH; reflexivity.
Qed.

End Splitting.

Lemma append_assoc (a b c : string) : ((a ++ b) ++ c = a ++ (b ++ c))%string.
Proof. induction a as [|x a IH]; simpl; [reflexivity | rewrite IH; reflexivity]. Qed.

Lemma concat_app (sep : string) (l1 l2 : list string) :
  l1 <> [] -> l2 <> [] ->
  String.concat sep (l1 ++ l2) =
  (String.concat sep l1 ++ sep ++ String.concat sep l2)%string.
Proof.
  intros H1 H2. induction l1 as [|x l1 IH]; [congruence|].
  destruct l1 as [|y l1].
  - simpl. destruct l2; [congruence | reflexivity].
  - change ((x :: y :: l1) ++ l2) with (x :: (y :: l1) ++ l2).
    change (String.concat sep (x :: (y :: l1) ++ l2))
      with (x ++ sep ++ String.concat sep ((y :: l1) ++ l2))%string.
    rewrite IH by discriminate.
    change (String.concat sep (x :: y :: l1))
      with (x ++ sep ++ String.concat sep (y :: l1))%string.
    rewrite !append_assoc. reflexivity.
Qed.

Lemma written_segment_of (piece : string) :
  written (Template.segment_of piece) = piece.
Proof.
  destruct piece as [|c piece]; [reflexivity|].
  unfold Template.segment_of.
  destruct c as [[] [] [] [] [] [] [] []]; reflexivity.
Qed.

(** The literal segments before the first placeholder resolve to
    themselves. *)
Lemma resolve_segments_plain (params : value) (segs rest : list Template.segment) :
  forallb (fun s => negb (Template.is_placeholder s)) segs = true ->
  Template.resolve_segments params (segs ++ rest) =
  match Template.resolve_segments params rest with
  | Normal pieces => Normal (map written segs ++ pieces)
  | Abrupt e => Abrupt e
  end.
Proof.
  induction segs as [|s segs IH]; simpl; intros H.
  - destruct (Template.resolve_segments params rest); reflexivity.
  - apply andb_true_iff in H. destruct H as [Hs Hsegs].
    destruct s; [|discriminate Hs].
    rewrite (IH Hsegs).
    destruct (Template.resolve_segments params rest); reflexivity.
Qed.

(** A template under a plain base URL resolves to the base URL followed by
    what the rest of the template resolves to. *)
Lemma resolve_under_base (baseUrl suffix : string) (params : value)
      (pieces : list string) :
  plain baseUrl = true ->
  Template.resolve_segments params (Template.parse suffix) = Normal pieces ->
  pieces <> [] ->
  Template.resolve (baseUrl ++ String "/" suffix) params =
  Normal (baseUrl ++ String "/" (String.concat "/" pieces))%string.
Proof.
  intros Hplain Hres Hne.
  unfold Template.resolve, Template.parse.
  rewrite split_on_app, map_app.
  rewrite (resolve_segments_plain _ _ _ Hplain).
  unfold Template.parse in Hres. rewrite Hres.
  unfold Template.parse. rewrite map_map.
  rewrite (map_ext _ (fun x => x) written_segment_of), map_id.
  rewrite concat_app; [|apply split_on_nonempty|exact Hne].
  rewrite concat_split_on. reflexivity.
Qed.

(** Under a plain base URL the first placeholder of each of the three
    templates is [:id]. *)
Lemma first_placeholder_under_base (baseUrl suffix : string) :
  plain baseUrl = true ->
  Facade.first_placeholder (Template.parse (baseUrl ++ String "/" suffix)) =
  Facade.first_placeholder (Template.parse suffix).
Proof.
  intros Hplain. unfold Facade.first_placeholder, Template.parse.
  rewrite split_on_app, map_app, filter_app.
  replace (filter Template.is_placeholder (map Template.segment_of (split_on "/" baseUrl)))
    with (@nil Template.segment); [reflexivity|].
  unfold plain, Template.parse in Hplain.
  induction (map Template.segment_of (split_on "/" baseUrl)) as [|s l IH];
    [reflexivity|].
  simpl in *. apply andb_true_iff in Hplain. destruct Hplain as [Hs Hl].
  destruct (Template.is_placeholder s); [discriminate|]. exact (IH Hl).
Qed.

Lemma text_of_field (params : value) (name s : string) :
  field params name = VString s -> s <> "" -> Template.text_of params name = Some s.
Proof.
  unfold field, Template.text_of. intros H Hne.
  destruct (get params name); [|discriminate H].
  subst a. rewrite (eqb_nonempty _ Hne). reflexivity.
Qed.

(** The paths of the three templates. *)
Lemma organizations_collection_path (baseUrl : string) (params : value) :
  plain baseUrl = true ->
  Template.text_of params "id" = None ->
  Template.resolve (organizations_template baseUrl) params =
  Normal (baseUrl ++ "/organizations")%string.
Proof.
  intros Hplain Hid. unfold organizations_template.
  apply resolve_under_base with (pieces := ["organizations"]);
    [exact Hplain | | discriminate].
  simpl. rewrite Hid. reflexivity.
Qed.

Lemma organizations_item_path (baseUrl : string) (params : value) (id : string) :
  plain baseUrl = true ->
  Template.text_of params "id" = Some id ->
  Template.resolve (organizations_template baseUrl) params =
  Normal (baseUrl ++ "/organizations/" ++ id)%string.
Proof.
  intros Hplain Hid. unfold organizations_template.
  rewrite resolve_under_base with (pieces := ["organizations"; id]);
    [reflexivity | exact Hplain | | discriminate].
  simpl. rewrite Hid. reflexivity.
Qed.

Lemma connections_collection_path (baseUrl : string) (params : value) (id : string) :
  plain baseUrl = true ->
  Template.text_of params "id" = Some id ->
  Template.text_of params "connection_id" = None ->
  Template.resolve (connections_template baseUrl) params =
  Normal (baseUrl ++ "/organizations/" ++ id ++ "/enabled_connections")%string.
Proof.
  intros Hplain Hid Hcid. unfold connections_template.
  rewrite resolve_under_base
    with (pieces := ["organizations"; id; "enabled_connections"]);
    [reflexivity | exact Hplain | | discriminate].
  simpl. rewrite Hid, Hcid. reflexivity.
Qed.

Lemma connections_item_path (baseUrl : string) (params : value) (id cid : string) :
  plain baseUrl = true ->
  Template.text_of params "id" = Some id ->
  Template.text_of params "connection_id" = Some cid ->
  Template.resolve (connections_template baseUrl) params =
  Normal (baseUrl ++ "/organizations/" ++ id ++ "/enabled_connections/" ++ cid)%string.
Proof.
  intros Hplain Hid Hcid. unfold connections_template.
  rewrite resolve_under_base
    with (pieces := ["organizations"; id; "enabled_connections"; cid]);
    [reflexivity | exact Hplain | | discriminate].
  simpl. rewrite Hid, Hcid. reflexivity.
Qed.

(* ===================================================================== *)
(** ** Lemmas on the collaborators of the specification *)
(* ===================================================================== *)

Lemma respond_client (options : value) (template meth : string) (v : verb)
      (args : list value) (w : world) :
  Facade.verb_of meth = Some v ->
  Facade.respond (client_for options template) meth args w =
  Facade.serve template (client_options options) (field options "retry") v args w.
Proof.
  intros Hv. unfold Facade.respond. rewrite Hv. reflexivity.
Qed.

Lemma split_callback_function (payload : list value) (name : string)
      (props : list (string * value)) :
  Facade.split_callback (payload ++ [VFunction name props]) =
  (payload, Some (VFunction name props)).
Proof.
  unfold Facade.split_callback. rewrite rev_app_distr. simpl.
  rewrite rev_involutive. reflexivity.
Qed.


Lemma split_callback_last (front : list value) (v : value) :
  instanceof_Function v = false ->
  Facade.split_callback (front ++ [v]) = (front ++ [v], None).
Proof.
  intros H. unfold Facade.split_callback. rewrite rev_app_distr. simpl.
  destruct v; try reflexivity. discriminate H.
Qed.

Lemma callback_test (cb : value) :
  truthy cb && instanceof_Function cb = instanceof_Function cb.
Proof. destruct cb; simpl; try reflexivity; apply andb_false_r. Qed.

Lemma or_not_function (data : value) :
  instanceof_Function data = false ->
  instanceof_Function (JS.or data empty_object) = false.
Proof.
  unfold JS.or. intros H. destruct (truthy data); [exact H | reflexivity].
Qed.

Lemma serve_with_callback (template : string) (options retry : value) (v : verb)
      (args payload : list value) (cb : value) (w : world) :
  Facade.split_callback args = (payload, Some cb) ->
  Facade.serve template options retry v args w =
  (Normal VUndefined,
   {| events := events w
                ++ [EPending (ByCallback cb)
                      (Facade.attempt_for template options retry v payload)];
      promises := promises w |}).
Proof. intros H. unfold Facade.serve. rewrite H. reflexivity. Qed.

Lemma serve_without_callback (template : string) (options retry : value) (v : verb)
      (args payload : list value) (w : world) :
  Facade.split_callback args = (payload, None) ->
  Facade.serve template options retry v args w =
  (Normal (VPromise (promises w)),
   {| events := events w
                ++ [EPending (ByPromise (promises w))
                      (Facade.attempt_for template options retry v payload)];
      promises := S (promises w) |}).
Proof. intros H. unfold Facade.serve. rewrite H. reflexivity. Qed.

Lemma resolve_for_other (v : verb) (template : string) (params : value) :
  v <> Get -> Facade.resolve_for v template params = Template.resolve template params.
Proof. destruct v; intros H; try reflexivity. congruence. Qed.

Lemma run_throw {A : Type} (c : collaborators) (p : prog A) (e : error) (w : world) :
  p = Throw e -> run c p w = (Abrupt e, w).
Proof. intros ->. reflexivity. Qed.

(** What a guarded call leaves behind once it has passed its guard: the one
    invocation the manager made, and the one request the client then has in
    flight. *)
Lemma run_guarded (options : value) (template meth : string) (v : verb)
      (params data cb : value) (url : string) (w : world) :
  Facade.verb_of meth = Some v -> v <> Get ->
  instanceof_Function data = false ->
  Template.resolve template params = Normal url ->
  exists result how w',
    run Facade.spec
      (invoke (client_for options template) meth (params :: data :: passed_on cb)) w =
    (Normal result, w') /\
    events w' =
    events w
    ++ [EInvoke (client_for options template) meth (params :: data :: passed_on cb);
        EPending how
          (Send {| req_method := Facade.method_of v; req_url := url;
                   req_body := data; req_options := client_options options;
                   req_retry := field options "retry" |})].
Proof.
  intros Hv Hget Hdata Hurl.
  assert (Hattempt :
    Facade.attempt_for template (client_options options) (field options "retry") v
      [params; data] =
    Send {| req_method := Facade.method_of v; req_url := url;
            req_body := data; req_options := client_options options;
            req_retry := field options "retry" |}).
  { unfold Facade.attempt_for.
    replace (Facade.params_and_data v [params; data]) with (params, data)
      by (destruct v; reflexivity).
    rewrite (resolve_for_other _ _ _ Hget), Hurl. reflexivity. }
  unfold invoke, passed_on. rewrite callback_test. simpl run.
  change (construct Facade.spec) with Facade.construct.
  change (respond Facade.spec) with Facade.respond.
  rewrite (respond_client _ _ _ _ _ _ Hv).
  destruct (instanceof_Function cb) eqn:Hcb.
  - destruct cb; try discriminate Hcb.
    rewrite (serve_with_callback _ _ _ _ _ [params; data] (VFunction name props))
      by (apply (split_callback_function [params; data])).
    rewrite Hattempt.
    eexists _, _, _. split; [reflexivity|].
    simpl. rewrite <- app_assoc. reflexivity.
  - rewrite (serve_without_callback _ _ _ _ _ [params; data]).
    + rewrite Hattempt.
      eexists _, _, _. split; [reflexivity|].
      simpl. rewrite <- app_assoc. reflexivity.
    + exact (split_callback_last [params] data Hdata).
Qed.

(* ===================================================================== *)
(** ** The guarded calls *)
(* ===================================================================== *)

Lemma addEnabledConnection_rejects (this : manager) (arguments : list value) :
  identifier (arg 0 arguments) "id" = false ->
  exists message,
    addEnabledConnection this arguments = Throw (ArgumentError message).
Proof.
  unfold identifier, addEnabledConnection. intros H.
  rewrite get_defaulted. simpl.
  destruct (truthy (field (arg 0 arguments) "id")); simpl.
  - rewrite andb_true_r in H. rewrite H. simpl. eexists. reflexivity.
  - eexists. reflexivity.
Qed.

Lemma addEnabledConnection_delegates (this : manager) (arguments : list value) :
  identifier (arg 0 arguments) "id" = true ->
  addEnabledConnection this arguments =
  invoke (connections this) "create"
    (arg 0 arguments :: JS.or (arg 1 arguments) empty_object
       :: passed_on (arg 2 arguments)).
Proof.
  unfold identifier, addEnabledConnection. intros H.
  apply andb_true_iff in H. destruct H as [Htype Htruthy].
  rewrite get_defaulted. simpl. rewrite Htruthy, Htype. simpl.
  rewrite (or_with_field _ _ Htruthy).
  unfold passed_on.
  destruct (truthy (arg 2 arguments) && instanceof_Function (arg 2 arguments));
    reflexivity.
Qed.

Lemma not_a_string_no_identifier (params : value) (name : string) :
  typeof (field params name) <> "string" \/ field params name = VString "" ->
  identifier params name = false.
Proof.
  unfold identifier. intros [H | H].
  - apply String.eqb_neq in H. rewrite H. reflexivity.
  - rewrite H. reflexivity.
Qed.

(** C2, as amended.  [addEnabledConnection(params, data, cb)], for all
    arguments.  When [params.id] is absent or is not a string (and also when
    it is the empty string), the call is a throw of an ArgumentError and
    nothing else: no collaborator is called and the world stays as it was.
    When [params.id] is a non-empty string, the call is exactly one call of
    [create] on the connections client, with [params], with [data] (or [{}]
    for a falsy one) and with the callback when there is one, and it returns
    what that call returns.  Where that call goes depends on [params]: for a
    manager built over a base URL and a [data] that is not a function, the
    client sends one POST request, to
    [baseUrl/organizations/<id>/enabled_connections] when [params] has no
    value for [connection_id], and to
    [baseUrl/organizations/<id>/enabled_connections/<connection_id>] when it
    has one. *)
Theorem addEnabledConnection_requires_id (this : manager) (arguments : list value) :
  let params := arg 0 arguments in
  let data := arg 1 arguments in
  let cb := arg 2 arguments in
  (typeof (field params "id") <> "string" \/ field params "id" = VString "" ->
   exists message,
     addEnabledConnection this arguments = Throw (ArgumentError message) /\
     forall c w,
       run c (addEnabledConnection this arguments) w =
       (Abrupt (ArgumentError message), w))
  /\
  (forall id, field params "id" = VString id -> id <> "" ->
     addEnabledConnection this arguments =
     invoke (connections this) "create"
       (params :: JS.or data empty_object :: passed_on cb))
  /\
  (forall options baseUrl id,
     this = manager_for options baseUrl -> plain baseUrl = true ->
     field params "id" = VString id -> id <> "" ->
     Template.text_of params "connection_id" = None ->
     instanceof_Function data = false ->
     forall w, exists result how w',
       run Facade.spec (addEnabledConnection this arguments) w = (Normal result, w') /\
       events w' =
       events w
       ++ [EInvoke (connections this) "create"
             (params :: JS.or data empty_object :: passed_on cb);
           EPending how
             (Send {| req_method := POST;
                      req_url := (baseUrl ++ "/organizations/" ++ id
                                    ++ "/enabled_connections")%string;
                      req_body := JS.or data empty_object;
                      req_options := client_options options;
                      req_retry := field options "retry" |})])
  /\
  (forall options baseUrl id connection,
     this = manager_for options baseUrl -> plain baseUrl = true ->
     field params "id" = VString id -> id <> "" ->
     Template.text_of params "connection_id" = Some connection ->
     instanceof_Function data = false ->
     forall w, exists result how w',
       run Facade.spec (addEnabledConnection this arguments) w = (Normal result, w') /\
       events w' =
       events w
       ++ [EInvoke (connections this) "create"
             (params :: JS.or data empty_object :: passed_on cb);
           EPending how
             (Send {| req_method := POST;
                      req_url := (baseUrl ++ "/organizations/" ++ id
                                    ++ "/enabled_connections/" ++ connection)%string;
                      req_body := JS.or data empty_object;
                      req_options := client_options options;
                      req_retry := field options "retry" |})]).
Proof.
  intros params data cb. split; [|split; [|split]].
  - intros H. apply not_a_string_no_identifier in H.
    destruct (addEnabledConnection_rejects this arguments H) as [message E].
    exists message. split; [exact E|]. intros c w. exact (run_throw c _ _ w E).
  - intros id Hid Hne. apply addEnabledConnection_delegates.
    apply identifier_spec. exists id. split; assumption.
  - intros options baseUrl id -> Hplain Hid Hne Hcid Hdata w.
    rewrite addEnabledConnection_delegates
      by (apply identifier_spec; exists id; split; assumption).
    apply (run_guarded options (connections_template baseUrl) "create" Create).
    + reflexivity.
    + discriminate.
    + apply or_not_function. exact Hdata.
    + apply connections_collection_path;
        [exact Hplain | exact (text_of_field _ _ _ Hid Hne) | exact Hcid].
  - intros options baseUrl id connection -> Hplain Hid Hne Hcid Hdata w.
    rewrite addEnabledConnection_delegates
      by (apply identifier_spec; exists id; split; assumption).
    apply (run_guarded options (connections_template baseUrl) "create" Create).
    + reflexivity.
    + discriminate.
    + apply or_not_function. exact Hdata.
    + apply connections_item_path;
        [exact Hplain | exact (text_of_field _ _ _ Hid Hne) | exact Hcid].
Qed.

Lemma removeEnabledConnection_rejects (this : manager) (arguments : list value) :
  identifier (arg 0 arguments) "id" && identifier (arg 0 arguments) "connection_id"
  = false ->
  exists message,
    removeEnabledConnection this arguments = Throw (ArgumentError message).
Proof.
  unfold identifier, removeEnabledConnection. intros H.
  rewrite !get_defaulted. simpl.
  destruct (truthy (field (arg 0 arguments) "id")); simpl;
    [|eexists; reflexivity].
  destruct (String.eqb (typeof (field (arg 0 arguments) "id")) "string"); simpl;
    [|eexists; reflexivity].
  destruct (truthy (field (arg 0 arguments) "connection_id")); simpl;
    [|eexists; reflexivity].
  destruct (String.eqb (typeof (field (arg 0 arguments) "connection_id")) "string");
    simpl; [discriminate H | eexists; reflexivity].
Qed.

Lemma removeEnabledConnection_delegates (this : manager) (arguments : list value) :
  identifier (arg 0 arguments) "id" = true ->
  identifier (arg 0 arguments) "connection_id" = true ->
  removeEnabledConnection this arguments =
  invoke (connections this) "delete"
    (arg 0 arguments :: empty_object :: passed_on (arg 1 arguments)).
Proof.
  unfold identifier, removeEnabledConnection. intros Hid Hcid.
  apply andb_true_iff in Hid. destruct Hid as [Htype Htruthy].
  apply andb_true_iff in Hcid. destruct Hcid as [Htype' Htruthy'].
  rewrite !get_defaulted. simpl.
  rewrite Htruthy, Htype, Htruthy', Htype'. simpl.
  rewrite (or_with_field _ _ Htruthy).
  unfold passed_on.
  destruct (truthy (arg 1 arguments) && instanceof_Function (arg 1 arguments));
    reflexivity.
Qed.


(** C10.  [addEnabledConnection] and [removeEnabledConnection] called with
    [params] omitted or [null] do not fail on reading [params.id]: [params]
    is first replaced by [{}], so the call is the throw of the ArgumentError
    about the missing organization ID.  More generally neither method ever
    throws a TypeError, whatever its arguments; and a [data] that is omitted
    reaches the client as [{}]. *)
Theorem missing_params_is_an_argument_error (this : manager)
        (arguments : list value) :
  (arg 0 arguments = VUndefined \/ arg 0 arguments = VNull ->
   addEnabledConnection this arguments =
   Throw (ArgumentError
            "The organizationId passed in params cannot be null or undefined") /\
   removeEnabledConnection this arguments =
   Throw (ArgumentError
            "The organization ID passed in params cannot be null or undefined"))
  /\
  (forall message,
     addEnabledConnection this arguments <> Throw (TypeError message) /\
     removeEnabledConnection this arguments <> Throw (TypeError message))
  /\
  (identifier (arg 0 arguments) "id" = true ->
   arg 1 arguments = VUndefined ->
   addEnabledConnection this arguments =
   invoke (connections this) "create"
     (arg 0 arguments :: empty_object :: passed_on (arg 2 arguments))).
Proof.
  split; [|split].
  - intros H. unfold addEnabledConnection, removeEnabledConnection.
    destruct H as [-> | ->]; split; reflexivity.
  - intros message. split.
    + destruct (identifier (arg 0 arguments) "id") eqn:H.
      * rewrite (addEnabledConnection_delegates _ _ H). discriminate.
      * destruct (addEnabledConnection_rejects this _ H) as [m ->]. discriminate.
    + destruct (identifier (arg 0 arguments) "id"
                && identifier (arg 0 arguments) "connection_id") eqn:H.
      * apply andb_true_iff in H. destruct H as [H1 H2].
        rewrite (removeEnabledConnection_delegates _ _ H1 H2). discriminate.
      * destruct (removeEnabledConnection_rejects this _ H) as [m ->]. discriminate.
  - intros H Hdata. rewrite (addEnabledConnection_delegates _ _ H).
    rewrite Hdata. reflexivity.
Qed.

(** C5.  A failed validation is a throw, also for a caller who passes a
    callback.  With a function as the callback, [addEnabledConnection] with
    no identifier and [removeEnabledConnection] without both identifiers end
    abruptly with the ArgumentError, and the world is as it was before the
    call: no client was called, so nothing holds the callback and it will not
    be called with the error, and no promise was made that could be rejected
    with it.  The same holds of the constructor with options it rejects. *)
Theorem validation_errors_are_thrown (this : manager) (params data cb : value) :
  instanceof_Function cb = true ->
  (identifier params "id" = false ->
   exists message, forall c w,
     run c (addEnabledConnection this [params; data; cb]) w =
     (Abrupt (ArgumentError message), w))
  /\
  (identifier params "id" && identifier params "connection_id" = false ->
   exists message, forall c w,
     run c (removeEnabledConnection this [params; cb]) w =
     (Abrupt (ArgumentError message), w))
  /\
  (forall options, invalid_options options ->
   exists message, forall c w,
     run c (OrganizationsManager options) w = (Abrupt (ArgumentError message), w)).
Proof.
  intros _. split; [|split].
  - intros H.
    destruct (addEnabledConnection_rejects this [params; data; cb] H) as [m E].
    exists m. intros c w. exact (run_throw c _ _ w E).
  - intros H.
    destruct (removeEnabledConnection_rejects this [params; cb] H) as [m E].
    exists m. intros c w. exact (run_throw c _ _ w E).
  - intros options H. destruct (invalid_options_throw _ H) as [m E].
    exists m. intros c w. exact (run_throw c _ _ w E).
Qed.

(* ===================================================================== *)
(** ** The unguarded calls *)
(* ===================================================================== *)

Lemma run_invoke (c : collaborators) (recv : value) (meth : string)
      (args : list value) (w : world) :
  run c (invoke recv meth args) w =
  respond c recv meth args (emit (EInvoke recv meth args) w).
Proof.
  unfold invoke. simpl.
  destruct (respond c recv meth args (emit (EInvoke recv meth args) w))
    as [[v | e] w']; reflexivity.
Qed.

(** C8.  [getEnabledConnections(params, cb)] and
    [getEnabledConnection(params, cb)] validate nothing.  For every [params]
    and every callback, each is one call on the connections client, of
    [getAll] and of [get], with that [params] and that callback as its two
    arguments, and it ends the way that call ends: whatever the collaborators
    are, running it is making that one call, and it is never a throw of the
    manager's own, whether or not [params] has an [id] or a [connection_id].
    Arguments after the callback are not passed on, and an argument the
    caller left out is passed as [undefined]. *)
Theorem enabled_connection_reads_are_unguarded (this : manager)
        (params callback : value) (more : list value) :
  getEnabledConnections this [params; callback] =
    invoke (connections this) "getAll" [params; callback]
  /\ getEnabledConnection this [params; callback] =
    invoke (connections this) "get" [params; callback]
  /\ call "getEnabledConnections" this [params; callback] =
    invoke (connections this) "getAll" [params; callback]
  /\ call "getEnabledConnection" this [params; callback] =
    invoke (connections this) "get" [params; callback]
  /\ (forall c w,
        run c (call "getEnabledConnections" this [params; callback]) w =
        respond c (connections this) "getAll" [params; callback]
          (emit (EInvoke (connections this) "getAll" [params; callback]) w)
        /\
        run c (call "getEnabledConnection" this [params; callback]) w =
        respond c (connections this) "get" [params; callback]
          (emit (EInvoke (connections this) "get" [params; callback]) w))
  /\ (forall e, getEnabledConnections this [params; callback] <> Throw e
                /\ getEnabledConnection this [params; callback] <> Throw e)
  /\ getEnabledConnections this (params :: callback :: more) =
    invoke (connections this) "getAll" [params; callback]
  /\ getEnabledConnection this (params :: callback :: more) =
    invoke (connections this) "get" [params; callback]
  /\ getEnabledConnections this [params] =
    invoke (connections this) "getAll" [params; VUndefined]
  /\ getEnabledConnection this [params] =
    invoke (connections this) "get" [params; VUndefined]
  /\ getEnabledConnections this [] =
    invoke (connections this) "getAll" [VUndefined; VUndefined]
  /\ getEnabledConnection this [] =
    invoke (connections this) "get" [VUndefined; VUndefined].
Proof.
  repeat split; try reflexivity; try discriminate;
    change (call "getEnabledConnections" this [params; callback])
      with (invoke (connections this) "getAll" [params; callback]);
    change (call "getEnabledConnection" this [params; callback])
      with (invoke (connections this) "get" [params; callback]);
    apply run_invoke.
Qed.


Lemma facade_promise (options : value) (template meth : string) (v : verb)
      (args : list value) (w : world) :
  Facade.verb_of meth = Some v ->
  Facade.split_callback args = (args, None) ->
  run Facade.spec (invoke (client_for options template) meth args) w =
  (Normal (VPromise (promises w)),
   {| events := events w
                ++ [EInvoke (client_for options template) meth args;
                    EPending (ByPromise (promises w))
                      (Facade.attempt_for template (client_options options)
                         (field options "retry") v args)];
      promises := S (promises w) |}).
Proof.
  intros Hv Hargs.
  rewrite run_invoke.
  change (respond Facade.spec) with Facade.respond.
  rewrite (respond_client _ _ _ _ _ _ Hv).
  rewrite (serve_without_callback _ _ _ _ _ _ _ Hargs).
  simpl. rewrite <- app_assoc. reflexivity.
Qed.

(* ===================================================================== *)
(** ** update *)
(* ===================================================================== *)

(** C4.  [update(params, data, cb)] is the [patch] verb of the organization
    client, the one that updates in part: the method the binder attaches
    under the name [update] calls [this.organizations.patch] with the
    arguments it was given.  For a manager built over a base URL the client
    sends one PATCH request to the item path, and its body is [data] as the
    caller gave it: the manager adds no field and removes none, so the fields
    the caller did not supply are not in the request. *)
Theorem update_is_partial_update (this : manager) (arguments : list value) :
  call "update" this arguments = invoke (organizations this) "patch" arguments
  /\ Facade.verb_of "patch" = Some Patch
  /\ Facade.method_of Patch = PATCH
  /\ (forall options baseUrl params data cb id,
        this = manager_for options baseUrl -> plain baseUrl = true ->
        arguments = params :: data :: passed_on cb ->
        field params "id" = VString id -> id <> "" ->
        instanceof_Function data = false ->
        forall w, exists result how w',
          run Facade.spec (call "update" this arguments) w = (Normal result, w') /\
          events w' =
          events w
          ++ [EInvoke (organizations this) "patch" arguments;
              EPending how
                (Send {| req_method := PATCH;
                         req_url := (baseUrl ++ "/organizations/" ++ id)%string;
                         req_body := data;
                         req_options := client_options options;
                         req_retry := field options "retry" |})]).
Proof.
  split; [reflexivity|]. split; [reflexivity|]. split; [reflexivity|].
  intros options baseUrl params data cb id -> Hplain -> Hid Hne Hdata w.
  change (call "update" (manager_for options baseUrl) (params :: data :: passed_on cb))
    with (invoke (client_for options (organizations_template baseUrl)) "patch"
            (params :: data :: passed_on cb)).
  apply (run_guarded options (organizations_template baseUrl) "patch" Patch).
  - reflexivity.
  - discriminate.
  - exact Hdata.
  - apply organizations_item_path; [exact Hplain | exact (text_of_field _ _ _ Hid Hne)].
Qed.

(* ===================================================================== *)
(** ** The three clients *)
(* ===================================================================== *)

Lemma no_new_invoke (recv : value) (meth : string) (args : list value) :
  no_new (invoke recv meth args).
Proof. apply no_new_Invoke. intros v. apply no_new_Ret. Qed.

Lemma no_new_addEnabledConnection (this : manager) (arguments : list value) :
  no_new (addEnabledConnection this arguments).
Proof.
  destruct (identifier (arg 0 arguments) "id") eqn:H.
  - rewrite (addEnabledConnection_delegates _ _ H). apply no_new_invoke.
  - destruct (addEnabledConnection_rejects this _ H) as [m ->]. apply no_new_Throw.
Qed.

Lemma no_new_removeEnabledConnection (this : manager) (arguments : list value) :
  no_new (removeEnabledConnection this arguments).
Proof.
  destruct (identifier (arg 0 arguments) "id"
            && identifier (arg 0 arguments) "connection_id") eqn:H.
  - apply andb_true_iff in H. destruct H as [H1 H2].
    rewrite (removeEnabledConnection_delegates _ _ H1 H2). apply no_new_invoke.
  - destruct (removeEnabledConnection_rejects this _ H) as [m ->]. apply no_new_Throw.
Qed.

Lemma methods_build_nothing (name : string) (m : method) (this : manager)
      (arguments : list value) :
  find_method name OrganizationsManager_prototype = Some m ->
  no_new (m this arguments).
Proof.
  unfold OrganizationsManager_prototype, wrapPropertyMethod, attach. simpl.
  repeat match goal with
         | |- (if ?b then _ else _) = _ -> _ =>
             destruct b;
             [intros E; injection E as <-; simpl;
              first [apply no_new_invoke
                    | apply no_new_addEnabledConnection
                    | apply no_new_removeEnabledConnection]|]
         end.
  discriminate.
Qed.

(** C7.  The constructor, given an object with a non-empty base URL, is the
    construction of three clients and nothing else: a templated client for
    [baseUrl/organizations/:id], one for
    [baseUrl/organizations/:id/enabled_connections/:connection_id] and one for
    [baseUrl/organizations/:id/members], each wrapped by the retry decorator
    as soon as it is built.  Run against the collaborators of the
    specification these are three Auth0RestClient and three RetryRestClient
    instances, and the clients of the manager hold these templates.  No
    method of the manager builds a client, whatever its arguments are and
    whatever the collaborators answer, and none returns a manager: the
    templates of a manager are those of its construction. *)
Theorem three_retry_decorated_clients (options : value) (baseUrl : string) :
  is_an_object options ->
  field options "baseUrl" = VString baseUrl -> baseUrl <> "" ->
  OrganizationsManager options = three_clients options baseUrl
  /\ (forall w,
        run Facade.spec (OrganizationsManager options) w =
        (Normal (manager_for options baseUrl),
         {| events := events w
                      ++ decoration options (baseUrl ++ "/organizations/:id")
                      ++ decoration options
                           (baseUrl
                              ++ "/organizations/:id/enabled_connections/:connection_id")
                      ++ decoration options (baseUrl ++ "/organizations/:id/members");
            promises := promises w |}))
  /\ (exists w',
        run Facade.spec (OrganizationsManager options) initial =
        (Normal (manager_for options baseUrl), w') /\
        built Auth0RestClient (events w') = 3 /\
        built RetryRestClient (events w') = 3 /\
        length (events w') = 6)
  /\ Facade.template_of (organizations (manager_for options baseUrl)) =
     Some ((baseUrl ++ "/organizations/:id")%string,
           client_options options, field options "retry")
  /\ Facade.template_of (connections (manager_for options baseUrl)) =
     Some ((baseUrl ++ "/organizations/:id/enabled_connections/:connection_id")%string,
           client_options options, field options "retry")
  /\ Facade.template_of (members (manager_for options baseUrl)) =
     Some ((baseUrl ++ "/organizations/:id/members")%string,
           client_options options, field options "retry")
  /\ (forall name m this arguments,
        find_method name OrganizationsManager_prototype = Some m ->
        no_new (m this arguments)).
Proof.
  intros Hobj Hurl Hne.
  pose proof (valid_options_build _ _ Hobj Hurl Hne) as E.
  split; [exact E|]. split; [|split].
  - intros w. rewrite E. apply run_three_clients.
  - rewrite E, run_three_clients. eexists. split; [reflexivity|].
    repeat split; reflexivity.
  - repeat split; try reflexivity.
    intros name m this arguments. apply methods_build_nothing.
Qed.

(* ===================================================================== *)
(** ** Resolution *)
(* ===================================================================== *)

(** The URL of a request that is sent is the resolution of the template of
    the client with the parameters of the call. *)
Lemma attempt_url (template : string) (options retry : value) (v : verb)
      (payload : list value) (r : request) :
  Facade.attempt_for template options retry v payload = Send r ->
  Template.resolve template (fst (Facade.params_and_data v payload)) =
  Normal (req_url r).
Proof.
  unfold Facade.attempt_for.
  destruct (Facade.params_and_data v payload) as [params data]. simpl.
  unfold Facade.resolve_for.
  destruct v;
    try (destruct (Template.resolve template params); intros H;
         [injection H as <-; reflexivity | discriminate H]).
  destruct (Facade.first_placeholder (Template.parse template)) as [name|].
  - destruct (Template.text_of params name); [|discriminate].
    destruct (Template.resolve template params); intros H;
      [injection H as <-; reflexivity | discriminate H].
  - destruct (Template.resolve template params); intros H;
      [injection H as <-; reflexivity | discriminate H].
Qed.

Lemma serve_pending (template : string) (options retry : value) (v : verb)
      (args : list value) (w : world) :
  exists result how n,
    Facade.serve template options retry v args w =
    (Normal result,
     {| events := events w
                  ++ [EPending how
                        (Facade.attempt_for template options retry v
                           (fst (Facade.split_callback args)))];
        promises := n |}).
Proof.
  unfold Facade.serve.
  destruct (Facade.split_callback args) as [payload [cb|]]; simpl;
    eexists _, _, _; reflexivity.
Qed.

Lemma get_item_attempt (options : value) (baseUrl id : string) (params : value)
      (payload : list value) :
  plain baseUrl = true ->
  Template.text_of params "id" = Some id ->
  Facade.params_and_data Get payload = (params, arg 1 payload) ->
  Facade.attempt_for (organizations_template baseUrl) (client_options options)
    (field options "retry") Get payload =
  Send {| req_method := GET;
          req_url := (baseUrl ++ "/organizations/" ++ id)%string;
          req_body := arg 1 payload;
          req_options := client_options options;
          req_retry := field options "retry" |}.
Proof.
  intros Hplain Hid Hpayload.
  unfold Facade.attempt_for. rewrite Hpayload.
  unfold Facade.resolve_for, organizations_template.
  rewrite (first_placeholder_under_base _ _ Hplain).
  change (Facade.first_placeholder (Template.parse "organizations/:id"))
    with (Some "id").
  cbv iota beta. rewrite Hid.
  fold (organizations_template baseUrl).
  rewrite (organizations_item_path _ _ _ Hplain Hid). reflexivity.
Qed.

Lemma getAll_collection_attempt (options : value) (baseUrl : string) (params : value)
      (payload : list value) :
  plain baseUrl = true ->
  Template.text_of params "id" = None ->
  Facade.params_and_data GetAll payload = (params, arg 1 payload) ->
  Facade.attempt_for (organizations_template baseUrl) (client_options options)
    (field options "retry") GetAll payload =
  Send {| req_method := GET;
          req_url := (baseUrl ++ "/organizations")%string;
          req_body := arg 1 payload;
          req_options := client_options options;
          req_retry := field options "retry" |}.
Proof.
  intros Hplain Hid Hpayload.
  unfold Facade.attempt_for. rewrite Hpayload.
  rewrite resolve_for_other by discriminate.
  rewrite (organizations_collection_path _ _ Hplain Hid). reflexivity.
Qed.

(** C9.  The path of a request is a function of the template and of the
    parameters, and of nothing else.  Whatever has happened before a call,
    the client makes the same attempt: the world it runs in only decides the
    identity of the promise.  When a request is sent its URL is the resolution
    of the client's template with the parameters of the call, so two calls
    on clients with the same template and with the same parameters, whatever
    their verbs, bodies, options and retry policies are, are sent to the same
    URL.  In particular, on the organization client under a base URL,
    [get({ id: X })] goes to [baseUrl/organizations/X] and [getAll({})] goes
    to [baseUrl/organizations]. *)
Theorem resolution_is_pure (template : string) :
  (forall options retry v args,
     exists what,
       what = Facade.attempt_for template options retry v
                (fst (Facade.split_callback args)) /\
       forall w, exists result how n,
         Facade.serve template options retry v args w =
         (Normal result,
          {| events := events w ++ [EPending how what]; promises := n |}))
  /\
  (forall options1 retry1 v1 args1 r1 options2 retry2 v2 args2 r2,
     Facade.attempt_for template options1 retry1 v1
       (fst (Facade.split_callback args1)) = Send r1 ->
     Facade.attempt_for template options2 retry2 v2
       (fst (Facade.split_callback args2)) = Send r2 ->
     params_of v1 args1 = params_of v2 args2 ->
     Template.resolve template (params_of v1 args1) = Normal (req_url r1) /\
     req_url r1 = req_url r2)
  /\
  (forall options baseUrl X w,
     template = organizations_template baseUrl ->
     plain baseUrl = true -> X <> "" ->
     run Facade.spec
       (call "get" (manager_for options baseUrl) [VObject [("id", VString X)]]) w =
     (Normal (VPromise (promises w)),
      {| events :=
           events w
           ++ [EInvoke (client_for options template) "get"
                 [VObject [("id", VString X)]];
               EPending (ByPromise (promises w))
                 (Send {| req_method := GET;
                          req_url := (baseUrl ++ "/organizations/" ++ X)%string;
                          req_body := VUndefined;
                          req_options := client_options options;
                          req_retry := field options "retry" |})];
         promises := S (promises w) |})
     /\
     run Facade.spec (call "getAll" (manager_for options baseUrl) [empty_object]) w =
     (Normal (VPromise (promises w)),
      {| events :=
           events w
           ++ [EInvoke (client_for options template) "getAll" [empty_object];
               EPending (ByPromise (promises w))
                 (Send {| req_method := GET;
                          req_url := (baseUrl ++ "/organizations")%string;
                          req_body := VUndefined;
                          req_options := client_options options;
                          req_retry := field options "retry" |})];
         promises := S (promises w) |})).
Proof.
  split; [|split].
  - intros options retry v args. eexists. split; [reflexivity|].
    intros w. apply serve_pending.
  - intros options1 retry1 v1 args1 r1 options2 retry2 v2 args2 r2 H1 H2 Hp.
    apply attempt_url in H1. apply attempt_url in H2.
    unfold params_of in *. split; [exact H1|].
    rewrite Hp in H1. rewrite H1 in H2. injection H2 as E. exact E.
  - intros options baseUrl X w -> Hplain HX. split.
    + change (call "get" (manager_for options baseUrl) [VObject [("id", VString X)]])
        with (invoke (client_for options (organizations_template baseUrl)) "get"
                [VObject [("id", VString X)]]).
      rewrite (facade_promise _ _ _ Get) by reflexivity.
      rewrite (get_item_attempt options baseUrl X (VObject [("id", VString X)]));
        [reflexivity | exact Hplain | | reflexivity].
      apply text_of_field; [reflexivity | exact HX].
    + change (call "getAll" (manager_for options baseUrl) [empty_object])
        with (invoke (client_for options (organizations_template baseUrl)) "getAll"
                [empty_object]).
      rewrite (facade_promise _ _ _ GetAll) by reflexivity.
      rewrite (getAll_collection_attempt options baseUrl empty_object);
        [reflexivity | exact Hplain | reflexivity | reflexivity].
Qed.

(* ===================================================================== *)
(** ** Callbacks and promises *)
(* ===================================================================== *)



Lemma passed_on_other (cb : value) :
  instanceof_Function cb = false -> passed_on cb = [].
Proof. intros H. unfold passed_on. rewrite callback_test, H. reflexivity. Qed.









(* ===================================================================== *)
(** ** The messages of the guards *)
(* ===================================================================== *)

Lemma constructor_no_options (options : value) :
  ~ is_an_object options ->
  OrganizationsManager options = Throw (ArgumentError Message.no_options).
Proof.
  intros H. unfold OrganizationsManager.
  destruct (is_null options || negb (String.eqb (typeof options) "object")) eqn:G;
    [reflexivity|].
  apply is_an_object_dec in G. contradiction.
Qed.

Lemma constructor_on_object (options : value) :
  is_an_object options ->
  OrganizationsManager options =
  match field options "baseUrl" with
  | VNull | VUndefined => Throw (ArgumentError Message.no_base_url)
  | VString "" => Throw (ArgumentError Message.bad_base_url)
  | VString url => three_clients options url
  | _ => Throw (ArgumentError Message.bad_base_url)
  end.
Proof.
  intros Hobj.
  destruct (object_cases _ Hobj) as [[props ->] | [id ->]]; [|reflexivity].
  unfold OrganizationsManager, field. simpl.
  destruct (lookup "baseUrl" props) as [b|]; [|reflexivity].
  destruct b; try reflexivity.
  destruct s; reflexivity.
Qed.

(** X1.  Which guard of the constructor speaks.  An [options] that is
    [null] or whose [typeof] is not ['object'] (a function too, even one that
    carries a base URL) is answered with 'Must provide manager options'; an
    object whose [baseUrl] is [null] or [undefined], or absent, with 'Must
    provide a base URL for the API'; an object whose [baseUrl] is anything
    else but a non-empty string (the empty string, a number, [false], an
    object) with 'The provided base URL is invalid'. *)
Theorem constructor_messages (options : value) :
  (~ is_an_object options ->
   OrganizationsManager options = Throw (ArgumentError Message.no_options))
  /\
  (is_an_object options ->
   field options "baseUrl" = VNull \/ field options "baseUrl" = VUndefined ->
   OrganizationsManager options = Throw (ArgumentError Message.no_base_url))
  /\
  (is_an_object options ->
   field options "baseUrl" <> VNull -> field options "baseUrl" <> VUndefined ->
   ~ nonempty_string (field options "baseUrl") ->
   OrganizationsManager options = Throw (ArgumentError Message.bad_base_url))
  /\
  (forall name props,
     options = VFunction name props ->
     OrganizationsManager options = Throw (ArgumentError Message.no_options)).
Proof.
  split; [exact (constructor_no_options options)|]. split; [|split].
  - intros Hobj H. rewrite (constructor_on_object _ Hobj).
    destruct H as [-> | ->]; reflexivity.
  - intros Hobj Hnull Hundef Hbad. rewrite (constructor_on_object _ Hobj).
    destruct (field options "baseUrl"); try reflexivity; try congruence.
    destruct s; [reflexivity|].
    exfalso. apply Hbad. eexists. split; [reflexivity | discriminate].
  - intros name props ->. reflexivity.
Qed.

Lemma addEnabledConnection_no_id (this : manager) (arguments : list value) :
  truthy (field (arg 0 arguments) "id") = false ->
  addEnabledConnection this arguments = Throw (ArgumentError Message.add_no_id).
Proof.
  intros H. unfold addEnabledConnection.
  rewrite get_defaulted. simpl. rewrite H. reflexivity.
Qed.

Lemma addEnabledConnection_bad_id (this : manager) (arguments : list value) :
  truthy (field (arg 0 arguments) "id") = true ->
  typeof (field (arg 0 arguments) "id") <> "string" ->
  addEnabledConnection this arguments = Throw (ArgumentError Message.add_bad_id).
Proof.
  intros H Htype. apply String.eqb_neq in Htype. unfold addEnabledConnection.
  rewrite get_defaulted. simpl. rewrite H. simpl. rewrite Htype. reflexivity.
Qed.

(** X2.  Which guard of [addEnabledConnection] speaks.  A [params.id] that
    is falsy, which besides [undefined] and [null] covers an absent one, the
    empty string, [0], [NaN] and [false], is answered with 'The
    organizationId passed in params cannot be null or undefined'; a truthy
    one that is not a string with 'The organization Id has to be a string'.
    A caller who passes the identifier itself where [params] is expected
    gets the first message, since a string has no [id]. *)
Theorem addEnabledConnection_messages (this : manager) (arguments : list value) :
  (truthy (field (arg 0 arguments) "id") = false ->
   addEnabledConnection this arguments = Throw (ArgumentError Message.add_no_id))
  /\
  (truthy (field (arg 0 arguments) "id") = true ->
   typeof (field (arg 0 arguments) "id") <> "string" ->
   addEnabledConnection this arguments = Throw (ArgumentError Message.add_bad_id))
  /\
  (forall s, arg 0 arguments = VString s ->
   addEnabledConnection this arguments = Throw (ArgumentError Message.add_no_id)).
Proof.
  split; [exact (addEnabledConnection_no_id this arguments)|].
  split; [exact (addEnabledConnection_bad_id this arguments)|].
  intros s H. apply addEnabledConnection_no_id. rewrite H. reflexivity.
Qed.

Lemma removeEnabledConnection_on_id (this : manager) (arguments : list value) :
  removeEnabledConnection this arguments =
  if negb (truthy (field (arg 0 arguments) "id")) then
    Throw (ArgumentError Message.remove_no_id)
  else if negb (String.eqb (typeof (field (arg 0 arguments) "id")) "string") then
    Throw (ArgumentError Message.remove_bad_id)
  else if negb (truthy (field (arg 0 arguments) "connection_id")) then
    Throw (ArgumentError Message.remove_no_connection)
  else if negb (String.eqb (typeof (field (arg 0 arguments) "connection_id"))
                  "string") then
    Throw (ArgumentError Message.remove_bad_connection)
  else
    invoke (connections this) "delete"
      (JS.or (arg 0 arguments) empty_object :: empty_object
         :: passed_on (arg 1 arguments)).
Proof.
  unfold removeEnabledConnection. rewrite !get_defaulted. simpl.
  destruct (truthy (field (arg 0 arguments) "id")); simpl; [|reflexivity].
  destruct (String.eqb (typeof (field (arg 0 arguments) "id")) "string"); simpl;
    [|reflexivity].
  destruct (truthy (field (arg 0 arguments) "connection_id")); simpl; [|reflexivity].
  destruct (String.eqb (typeof (field (arg 0 arguments) "connection_id")) "string");
    simpl; [|reflexivity].
  unfold passed_on.
  destruct (truthy (arg 1 arguments) && instanceof_Function (arg 1 arguments));
    reflexivity.
Qed.

(** X3.  Which guard of [removeEnabledConnection] speaks, and in which
    order.  The organization ID is looked at first: when it is falsy the
    message is 'The organization ID passed in params cannot be null or
    undefined', and when it is truthy and not a string, 'The organization ID
    has to be a string', whatever the connection ID is.  Only with a
    non-empty string as organization ID is the connection ID looked at: a
    falsy one gives 'The connection ID passed in params cannot be null or
    undefined', a truthy one that is not a string gives 'The connection ID
    has to be a string'. *)
Theorem removeEnabledConnection_messages (this : manager) (arguments : list value) :
  let params := arg 0 arguments in
  (truthy (field params "id") = false ->
   removeEnabledConnection this arguments =
   Throw (ArgumentError Message.remove_no_id))
  /\
  (truthy (field params "id") = true -> typeof (field params "id") <> "string" ->
   removeEnabledConnection this arguments =
   Throw (ArgumentError Message.remove_bad_id))
  /\
  (identifier params "id" = true -> truthy (field params "connection_id") = false ->
   removeEnabledConnection this arguments =
   Throw (ArgumentError Message.remove_no_connection))
  /\
  (identifier params "id" = true -> truthy (field params "connection_id") = true ->
   typeof (field params "connection_id") <> "string" ->
   removeEnabledConnection this arguments =
   Throw (ArgumentError Message.remove_bad_connection)).
Proof.
  intros params. subst params. rewrite removeEnabledConnection_on_id.
  unfold identifier. repeat split.
  - intros ->. reflexivity.
  - intros -> H. apply String.eqb_neq in H. rewrite H. reflexivity.
  - intros H ->. apply andb_true_iff in H. destruct H as [-> ->]. reflexivity.
  - intros H -> Hc. apply andb_true_iff in H. destruct H as [-> ->].
    apply String.eqb_neq in Hc. rewrite Hc. reflexivity.
Qed.

(* ===================================================================== *)
(** ** Construction, whatever the collaborators are *)
(* ===================================================================== *)

(** X4.  The constructor reads four fields of [options] and no other:
    [baseUrl], [headers], [tokenProvider] and [retry].  Two objects that
    agree on these four are constructed alike, whatever else they hold; in
    particular a [query] among the options is not passed on, and every client
    is built with [repeatParams: false]. *)
Theorem construction_reads_four_fields (options1 options2 : value) :
  is_an_object options1 -> is_an_object options2 ->
  field options1 "baseUrl" = field options2 "baseUrl" ->
  field options1 "headers" = field options2 "headers" ->
  field options1 "tokenProvider" = field options2 "tokenProvider" ->
  field options1 "retry" = field options2 "retry" ->
  OrganizationsManager options1 = OrganizationsManager options2.
Proof.
  intros Hobj1 Hobj2 Hbase Hheaders Hprovider Hretry.
  rewrite (constructor_on_object _ Hobj1), (constructor_on_object _ Hobj2), Hbase.
  destruct (field options2 "baseUrl"); try reflexivity.
  destruct s; [reflexivity|].
  unfold three_clients, decorated, client_options.
  rewrite Hheaders, Hprovider, Hretry. reflexivity.
Qed.

Lemma run_decorated_returns {A : Type} (c : collaborators) (options : value)
      (template : string) (k : value -> prog A) (w w' : world) (a : A) :
  run c (decorated options template k) w = (Normal a, w') <->
  exists client w2,
    decorates c options template w client w2 /\ run c (k client) w2 = (Normal a, w').
Proof.
  unfold decorated, decorates, templated_args. simpl.
  destruct (construct c Auth0RestClient _ _) as [[restClient | e] w1] eqn:E1.
  - simpl.
    destruct (construct c RetryRestClient _ _) as [[client | e] w2] eqn:E2.
    + split.
      * intros H. exists client, w2. split; [|exact H].
        exists restClient, w1. split; [reflexivity | exact E2].
      * intros (client' & w2' & (restClient' & w1' & H1 & H2) & H).
        injection H1 as <- <-. rewrite E2 in H2. injection H2 as <- <-. exact H.
    + split; [discriminate|].
      intros (client' & w2' & (restClient' & w1' & H1 & H2) & H).
      injection H1 as <- <-. rewrite E2 in H2. discriminate H2.
  - split; [discriminate|].
    intros (client' & w2' & (restClient' & w1' & H1 & H2) & H). discriminate H1.
Qed.

Lemma run_decorated_throws {A : Type} (c : collaborators) (options : value)
      (template : string) (k : value -> prog A) (w w' : world) (e : error) :
  run c (decorated options template k) w = (Abrupt e, w') ->
  (exists cls args w0, construct c cls args w0 = (Abrupt e, w'))
  \/ exists client w2, run c (k client) w2 = (Abrupt e, w').
Proof.
  unfold decorated. simpl.
  destruct (construct c Auth0RestClient _ _) as [[restClient | e1] w1] eqn:E1.
  - simpl.
    destruct (construct c RetryRestClient _ _) as [[client | e2] w2] eqn:E2.
    + intros H. right. exists client, w2. exact H.
    + intros H. injection H as <- <-. left. eexists _, _, _. exact E2.
  - intros H. injection H as <- <-. left. eexists _, _, _. exact E1.
Qed.

(** X5.  How the constructor wires its clients, whatever the collaborators
    are.  Given an object with a non-empty base URL, construction returns the
    manager [m] exactly when the three decorations succeed one after the
    other, each starting in the world the one before left: the templated
    client for the organizations template wrapped into [m.organizations],
    then the one for the connections template wrapped into [m.connections],
    then the one for the members template wrapped into [m.members].  Each
    retry decorator is given the templated client built just before it and
    [options.retry]. *)
Theorem construction_wires_three_decorations (c : collaborators) (options : value)
        (baseUrl : string) (w w' : world) (m : manager) :
  is_an_object options ->
  field options "baseUrl" = VString baseUrl -> baseUrl <> "" ->
  (run c (OrganizationsManager options) w = (Normal m, w') <->
   exists w1 w2,
     decorates c options (organizations_template baseUrl) w (organizations m) w1
     /\ decorates c options (connections_template baseUrl) w1 (connections m) w2
     /\ decorates c options (members_template baseUrl) w2 (members m) w').
Proof.
  intros Hobj Hurl Hne. rewrite (valid_options_build _ _ Hobj Hurl Hne).
  unfold three_clients. rewrite run_decorated_returns. split.
  - intros (o & w1 & Ho & H). apply run_decorated_returns in H.
    destruct H as (cn & w2 & Hc & H). apply run_decorated_returns in H.
    destruct H as (mb & w3 & Hm & H). simpl in H. injection H as <- <-.
    exists w1, w2. simpl. auto.
  - intros (w1 & w2 & Ho & Hc & Hm).
    exists (organizations m), w1. split; [exact Ho|].
    apply run_decorated_returns. exists (connections m), w2. split; [exact Hc|].
    apply run_decorated_returns. exists (members m), w'. split; [exact Hm|].
    destruct m. reflexivity.
Qed.

(** X6.  The constructor neither catches what a collaborator throws nor,
    once it has accepted its options, throws anything of its own.  Given an
    object with a non-empty base URL: when construction ends abruptly, the
    error and the world are those of a constructor call of a collaborator
    that ended abruptly; and when the first [new Auth0RestClient] ends
    abruptly, so does construction, with that error and in that world,
    without a further call. *)
Theorem construction_passes_errors_on (c : collaborators) (options : value)
        (baseUrl : string) (w w' : world) (e : error) :
  is_an_object options ->
  field options "baseUrl" = VString baseUrl -> baseUrl <> "" ->
  (run c (OrganizationsManager options) w = (Abrupt e, w') ->
   exists cls args w0, construct c cls args w0 = (Abrupt e, w'))
  /\
  (construct c Auth0RestClient
     (templated_args options (organizations_template baseUrl))
     (emit (ENew Auth0RestClient
              (templated_args options (organizations_template baseUrl))) w)
   = (Abrupt e, w') ->
   run c (OrganizationsManager options) w = (Abrupt e, w')).
Proof.
  intros Hobj Hurl Hne. rewrite (valid_options_build _ _ Hobj Hurl Hne).
  unfold three_clients. split.
  - intros H.
    apply run_decorated_throws in H. destruct H as [H | (o & w1 & H)]; [exact H|].
    apply run_decorated_throws in H. destruct H as [H | (cn & w2 & H)]; [exact H|].
    apply run_decorated_throws in H. destruct H as [H | (mb & w3 & H)]; [exact H|].
    discriminate H.
  - intros H. unfold decorated, templated_args in *. simpl. rewrite H. reflexivity.
Qed.

(* ===================================================================== *)
(** ** What the guarded calls hand to the client *)
(* ===================================================================== *)

Lemma addEnabledConnection_on_id (this : manager) (arguments : list value) :
  addEnabledConnection this arguments =
  if negb (truthy (field (arg 0 arguments) "id")) then
    Throw (ArgumentError Message.add_no_id)
  else if negb (String.eqb (typeof (field (arg 0 arguments) "id")) "string") then
    Throw (ArgumentError Message.add_bad_id)
  else
    invoke (connections this) "create"
      (JS.or (arg 0 arguments) empty_object :: JS.or (arg 1 arguments) empty_object
         :: passed_on (arg 2 arguments)).
Proof.
  unfold addEnabledConnection. rewrite !get_defaulted. simpl.
  destruct (truthy (field (arg 0 arguments) "id")); simpl; [|reflexivity].
  destruct (String.eqb (typeof (field (arg 0 arguments) "id")) "string"); simpl;
    [|reflexivity].
  unfold passed_on.
  destruct (truthy (arg 2 arguments) && instanceof_Function (arg 2 arguments));
    reflexivity.
Qed.

Lemma or_truthy (v : value) : truthy (JS.or v empty_object) = true.
Proof. unfold JS.or. destruct (truthy v) eqn:H; [exact H | reflexivity]. Qed.

Lemma passed_on_shape (cb : value) :
  passed_on cb = [] \/ (passed_on cb = [cb] /\ instanceof_Function cb = true).
Proof.
  unfold passed_on. rewrite callback_test.
  destruct (instanceof_Function cb); [right; split; reflexivity | left; reflexivity].
Qed.

(** X7.  A callback that is not a function is as good as none.  With a
    third argument of [addEnabledConnection], or a second of
    [removeEnabledConnection], that is not a function (an object, a string,
    [null]) the call is the call without that argument: it is not handed to
    the client, and it is not a reason to throw. *)
Theorem callback_that_is_no_function_is_dropped (this : manager)
        (params data cb : value) :
  instanceof_Function cb = false ->
  addEnabledConnection this [params; data; cb] =
  addEnabledConnection this [params; data]
  /\ removeEnabledConnection this [params; cb] =
     removeEnabledConnection this [params].
Proof.
  intros Hcb.
  rewrite !addEnabledConnection_on_id, !removeEnabledConnection_on_id.
  change (arg 2 [params; data; cb]) with cb.
  change (arg 1 [params; cb]) with cb.
  rewrite (passed_on_other _ Hcb). split; reflexivity.
Qed.

(** X8.  What the connections client can rely on.  Whenever
    [addEnabledConnection] calls a collaborator, it is [create] on the
    connections client, and of the arguments of that call the first is the
    caller's [params], with a non-empty string as [id], the second is truthy
    (the caller's [data], or [{}] in place of a falsy one), and a third is
    there only when it is a function.  Whenever [removeEnabledConnection]
    calls a collaborator, it is [delete] on the connections client, with the
    caller's [params], in which [id] and [connection_id] are non-empty
    strings, with [{}] as the second argument, and with a third only when it
    is a function.  In both the result of that call is what the method
    returns. *)
Theorem guarded_calls_reach_the_client_checked (this : manager)
        (arguments : list value) (recv : value) (meth : string)
        (args : list value) (k : value -> prog value) :
  (addEnabledConnection this arguments = Invoke recv meth args k ->
   recv = connections this /\ meth = "create" /\ k = Ret
   /\ arg 0 args = arg 0 arguments
   /\ identifier (arg 0 args) "id" = true
   /\ truthy (arg 1 args) = true
   /\ (length args = 2
       \/ (length args = 3 /\ instanceof_Function (arg 2 args) = true)))
  /\
  (removeEnabledConnection this arguments = Invoke recv meth args k ->
   recv = connections this /\ meth = "delete" /\ k = Ret
   /\ arg 0 args = arg 0 arguments
   /\ identifier (arg 0 args) "id" = true
   /\ identifier (arg 0 args) "connection_id" = true
   /\ arg 1 args = empty_object
   /\ (length args = 2
       \/ (length args = 3 /\ instanceof_Function (arg 2 args) = true))).
Proof.
  split.
  - rewrite addEnabledConnection_on_id. unfold identifier.
    destruct (truthy (field (arg 0 arguments) "id")) eqn:Ht; simpl;
      [|discriminate].
    destruct (String.eqb (typeof (field (arg 0 arguments) "id")) "string") eqn:Hs;
      simpl; [|discriminate].
    rewrite (or_with_field _ _ Ht).
    unfold invoke. intros H. injection H as <- <- <- <-.
    repeat split; try reflexivity.
    + change (arg 0 (arg 0 arguments :: ?l)) with (arg 0 arguments).
      rewrite Hs, Ht. reflexivity.
    + apply or_truthy.
    + destruct (passed_on_shape (arg 2 arguments)) as [-> | [-> Hf]];
        [left; reflexivity | right; split; [reflexivity | exact Hf]].
  - rewrite removeEnabledConnection_on_id. unfold identifier.
    destruct (truthy (field (arg 0 arguments) "id")) eqn:Ht; simpl;
      [|discriminate].
    destruct (String.eqb (typeof (field (arg 0 arguments) "id")) "string") eqn:Hs;
      simpl; [|discriminate].
    destruct (truthy (field (arg 0 arguments) "connection_id")) eqn:Hct; simpl;
      [|discriminate].
    destruct (String.eqb (typeof (field (arg 0 arguments) "connection_id")) "string")
      eqn:Hcs; simpl; [|discriminate].
    rewrite (or_with_field _ _ Ht).
    unfold invoke. intros H. injection H as <- <- <- <-.
    repeat split; try reflexivity.
    + change (arg 0 (arg 0 arguments :: ?l)) with (arg 0 arguments).
      rewrite Hs, Ht. reflexivity.
    + change (arg 0 (arg 0 arguments :: ?l)) with (arg 0 arguments).
      rewrite Hcs, Hct. reflexivity.
    + destruct (passed_on_shape (arg 1 arguments)) as [-> | [-> Hf]];
        [left; reflexivity | right; split; [reflexivity | exact Hf]].
Qed.

(** X9.  Parameters good enough to remove a connection are good enough to
    add one.  When [removeEnabledConnection] does not throw on a [params],
    whatever its callback, then [addEnabledConnection] does not throw on the
    same [params], whatever its data and callback. *)
Theorem params_that_remove_also_add (this : manager) (params : value)
        (rest rest' : list value) :
  (forall e, removeEnabledConnection this (params :: rest) <> Throw e) ->
  forall e, addEnabledConnection this (params :: rest') <> Throw e.
Proof.
  intros H e.
  rewrite addEnabledConnection_on_id.
  pose proof (H (ArgumentError Message.remove_no_id)) as H1.
  pose proof (H (ArgumentError Message.remove_bad_id)) as H2.
  rewrite removeEnabledConnection_on_id in H1, H2.
  change (arg 0 (params :: rest)) with params in H1, H2.
  change (arg 0 (params :: rest')) with params.
  destruct (truthy (field params "id")); simpl in *; [|congruence].
  destruct (String.eqb (typeof (field params "id")) "string"); simpl in *;
    [discriminate | congruence].
Qed.

(** X10.  [removeEnabledConnection] has two parameters, and a callback in
    third place is lost.  The call [removeEnabledConnection(params, data,
    cb)], in the shape of [addEnabledConnection], with a [data] that is not a
    function, is the call [removeEnabledConnection(params)]: with both
    identifiers in [params] it is the call of [delete] on the connections
    client with [params] and [{}] alone, so neither [data] nor [cb] reaches
    the client. *)
Theorem removeEnabledConnection_third_argument_is_lost (this : manager)
        (params data cb : value) :
  instanceof_Function data = false ->
  removeEnabledConnection this [params; data; cb] =
  removeEnabledConnection this [params]
  /\ (identifier params "id" = true -> identifier params "connection_id" = true ->
      removeEnabledConnection this [params; data; cb] =
      invoke (connections this) "delete" [params; empty_object]).
Proof.
  intros Hdata. split.
  - rewrite !removeEnabledConnection_on_id.
    change (arg 1 [params; data; cb]) with data.
    rewrite (passed_on_other _ Hdata). reflexivity.
  - intros Hid Hcid.
    rewrite (removeEnabledConnection_delegates this [params; data; cb] Hid Hcid).
    change (arg 1 [params; data; cb]) with data.
    rewrite (passed_on_other _ Hdata). reflexivity.
Qed.

(** X11.  No method of the manager uses the members client.  What a method
    of the prototype does depends on [this.organizations] and
    [this.connections] only: on two managers that differ in nothing but
    [members], every method is the same program for the same arguments. *)
Theorem members_client_is_not_used (name : string) (m : method)
        (this this' : manager) (arguments : list value) :
  find_method name OrganizationsManager_prototype = Some m ->
  organizations this = organizations this' ->
  connections this = connections this' ->
  m this arguments = m this' arguments.
Proof.
  intros Hfind Ho Hc. revert Hfind.
  unfold OrganizationsManager_prototype, wrapPropertyMethod, attach. simpl.
  repeat match goal with
         | |- (if ?b then _ else _) = _ -> _ =>
             destruct b;
             [intros E; injection E as <-; simpl;
              first [rewrite Ho; reflexivity
                    | unfold getEnabledConnections; rewrite Hc; reflexivity
                    | unfold getEnabledConnection; rewrite Hc; reflexivity
                    | rewrite !addEnabledConnection_on_id, Hc; reflexivity
                    | rewrite !removeEnabledConnection_on_id, Hc; reflexivity]|]
         end.
  discriminate.
Qed.


End Properties.

(* ===================================================================== *)
(** ** Instances *)
(* ===================================================================== *)

(** The properties above at concrete inputs, with the sample transport. *)
#[local] Existing Instance Sample.transport.

(** The constructor on [null], on options without a base URL, and on the
    sample options. *)
Lemma construction_all_or_nothing_witness :
  (exists message,
     OrganizationsManager VNull = Throw (ArgumentError message) /\
     forall c w,
       run c (OrganizationsManager VNull) w = (Abrupt (ArgumentError message), w))
  /\
  (exists message,
     OrganizationsManager (VObject [("headers", empty_object)]) =
     Throw (ArgumentError message) /\
     forall c w,
       run c (OrganizationsManager (VObject [("headers", empty_object)])) w =
       (Abrupt (ArgumentError message), w))
  /\
  (exists baseUrl,
     field Sample.options "baseUrl" = VString baseUrl /\
     (forall w, exists w',
        run Facade.spec (OrganizationsManager Sample.options) w =
        (Normal (manager_for Sample.options baseUrl), w')) /\
     method_names = documented_methods /\
     forall name, In name documented_methods ->
       exists m, find_method name OrganizationsManager_prototype = Some m).
Proof.
  split; [|split].
  - apply (proj1 (proj2 (proj2 (construction_all_or_nothing VNull)))).
    left. intros [H _]. congruence.
  - apply (proj1 (proj2 (proj2 (construction_all_or_nothing
                                  (VObject [("headers", empty_object)]))))).
    right. intros (s & Hs & _). discriminate Hs.
  - apply (proj2 (proj2 (proj2 (construction_all_or_nothing Sample.options)))).
    split.
    + split; [discriminate | reflexivity].
    + exists Sample.baseUrl. split; [reflexivity | discriminate].
Defined.

(** The inputs the specification names: [addEnabledConnection({}, data)] and
    [addEnabledConnection({ id: 123 }, data)] throw, and
    [addEnabledConnection({ id: 'org1' }, data)] sends one request. *)
Lemma addEnabledConnection_requires_id_witness :
  (exists message,
     addEnabledConnection Sample.this [empty_object; Sample.data] =
     Throw (ArgumentError message) /\
     forall c w,
       run c (addEnabledConnection Sample.this [empty_object; Sample.data]) w =
       (Abrupt (ArgumentError message), w))
  /\
  (exists message,
     addEnabledConnection Sample.this
       [VObject [("id", VNumber 123%float)]; Sample.data; Sample.cb] =
     Throw (ArgumentError message) /\
     forall c w,
       run c (addEnabledConnection Sample.this
                [VObject [("id", VNumber 123%float)]; Sample.data; Sample.cb]) w =
       (Abrupt (ArgumentError message), w))
  /\
  addEnabledConnection Sample.this [Sample.org1; Sample.data] =
  invoke (connections Sample.this) "create" [Sample.org1; Sample.data]
  /\
  (exists result how w',
    run Facade.spec (addEnabledConnection Sample.this [Sample.org1; Sample.data])
      initial = (Normal result, w') /\
    events w' =
    [EInvoke (connections Sample.this) "create" [Sample.org1; Sample.data];
     EPending how
       (Send {| req_method := POST;
                req_url :=
                  "https://tenant.example/api/v2/organizations/org1/enabled_connections";
                req_body := Sample.data;
                req_options := client_options Sample.options;
                req_retry := field Sample.options "retry" |})])
  /\
  exists result how w',
    run Facade.spec (addEnabledConnection Sample.this [Sample.org1_c1; Sample.data])
      initial = (Normal result, w') /\
    events w' =
    [EInvoke (connections Sample.this) "create" [Sample.org1_c1; Sample.data];
     EPending how
       (Send {| req_method := POST;
                req_url :=
                  "https://tenant.example/api/v2/organizations/org1/enabled_connections/c1";
                req_body := Sample.data;
                req_options := client_options Sample.options;
                req_retry := field Sample.options "retry" |})].
Proof.
  split; [|split; [|split; [|split]]].
  - apply (proj1 (addEnabledConnection_requires_id Sample.this
                    [empty_object; Sample.data])).
    left. simpl. discriminate.
  - apply (proj1 (addEnabledConnection_requires_id Sample.this
                    [VObject [("id", VNumber 123%float)]; Sample.data; Sample.cb])).
    left. simpl. discriminate.
  - apply (proj1 (proj2 (addEnabledConnection_requires_id Sample.this
                           [Sample.org1; Sample.data])) "org1");
      [reflexivity | discriminate].
  - apply (proj1 (proj2 (proj2 (addEnabledConnection_requires_id Sample.this
                                  [Sample.org1; Sample.data])))
             Sample.options Sample.baseUrl "org1");
      [reflexivity | reflexivity | reflexivity | discriminate
       | reflexivity | reflexivity].
  - apply (proj2 (proj2 (proj2 (addEnabledConnection_requires_id Sample.this
                                  [Sample.org1_c1; Sample.data])))
             Sample.options Sample.baseUrl "org1" "c1");
      [reflexivity | reflexivity | reflexivity | discriminate
       | reflexivity | reflexivity].
Defined.

(** The claim as it was worded, at [addEnabledConnection({ id: 'org1',
    connection_id: 'c1' }, data)]: [params.id] is a non-empty string, and
    the one request goes to the path of that connection, not to
    [/organizations/org1/enabled_connections]. *)
Lemma addEnabledConnection_path_counterexample :
  field Sample.org1_c1 "id" = VString "org1"
  /\ run Facade.spec (addEnabledConnection Sample.this [Sample.org1_c1; Sample.data])
       initial =
     (Normal (VPromise 0),
      {| events :=
           [EInvoke (connections Sample.this) "create" [Sample.org1_c1; Sample.data];
            EPending (ByPromise 0)
              (Send {| req_method := POST;
                       req_url :=
                         "https://tenant.example/api/v2/organizations/org1/enabled_connections/c1";
                       req_body := Sample.data;
                       req_options := client_options Sample.options;
                       req_retry := field Sample.options "retry" |})];
         promises := 1 |})
  /\ ~ (exists result how w',
         run Facade.spec
           (addEnabledConnection Sample.this [Sample.org1_c1; Sample.data]) initial =
         (Normal result, w') /\
         events w' =
         [EInvoke (connections Sample.this) "create" [Sample.org1_c1; Sample.data];
          EPending how
            (Send {| req_method := POST;
                     req_url :=
                       "https://tenant.example/api/v2/organizations/org1/enabled_connections";
                     req_body := Sample.data;
                     req_options := client_options Sample.options;
                     req_retry := field Sample.options "retry" |})]).
Proof.
  split; [reflexivity|]. split; [reflexivity|].
  intros (result & how & w' & Hrun & Hevents).
  injection Hrun as _ <-. simpl in Hevents. discriminate Hevents.
Qed.


(** The calls with nothing, with [null], and with an identifier and no
    data. *)
Lemma missing_params_is_an_argument_error_witness :
  (addEnabledConnection Sample.this [] =
   Throw (ArgumentError
            "The organizationId passed in params cannot be null or undefined") /\
   removeEnabledConnection Sample.this [] =
   Throw (ArgumentError
            "The organization ID passed in params cannot be null or undefined"))
  /\
  (addEnabledConnection Sample.this [VNull; VUndefined; Sample.cb] =
   Throw (ArgumentError
            "The organizationId passed in params cannot be null or undefined") /\
   removeEnabledConnection Sample.this [VNull; VUndefined; Sample.cb] =
   Throw (ArgumentError
            "The organization ID passed in params cannot be null or undefined"))
  /\
  addEnabledConnection Sample.this [Sample.org1] =
  invoke (connections Sample.this) "create" [Sample.org1; empty_object].
Proof.
  split; [|split].
  - apply (proj1 (missing_params_is_an_argument_error Sample.this [])).
    left. reflexivity.
  - apply (proj1 (missing_params_is_an_argument_error Sample.this
                    [VNull; VUndefined; Sample.cb])).
    right. reflexivity.
  - apply (proj2 (proj2 (missing_params_is_an_argument_error Sample.this
                           [Sample.org1]))); reflexivity.
Defined.

(** Callback-style calls that fail validation, run against the collaborators
    of the specification. *)
Lemma validation_errors_are_thrown_witness :
  (exists message, forall c w,
     run c (addEnabledConnection Sample.this
              [VObject [("id", VNumber 123%float)]; Sample.data; Sample.cb]) w =
     (Abrupt (ArgumentError message), w))
  /\
  (exists message, forall c w,
     run c (removeEnabledConnection Sample.this [Sample.org1; Sample.cb]) w =
     (Abrupt (ArgumentError message), w))
  /\
  (exists message, forall c w,
     run c (OrganizationsManager (VObject [("baseUrl", VString "")])) w =
     (Abrupt (ArgumentError message), w)).
Proof.
  destruct (validation_errors_are_thrown Sample.this
              (VObject [("id", VNumber 123%float)]) Sample.data Sample.cb
              eq_refl) as (Hadd & _ & _).
  destruct (validation_errors_are_thrown Sample.this
              Sample.org1 Sample.data Sample.cb eq_refl) as (_ & Hremove & Hnew).
  split; [|split].
  - apply Hadd. reflexivity.
  - apply Hremove. reflexivity.
  - apply Hnew. right. intros (s & Hs & Hne). inversion Hs. congruence.
Defined.

(** [update({ id: 'org1' }, { name: 'New name' }, cb)] *)
Lemma update_is_partial_update_witness :
  exists result how w',
    run Facade.spec
      (call "update" Sample.this [Sample.org1; Sample.new_name; Sample.cb]) initial =
    (Normal result, w') /\
    events w' =
    [EInvoke (organizations Sample.this) "patch"
       [Sample.org1; Sample.new_name; Sample.cb];
     EPending how
       (Send {| req_method := PATCH;
                req_url := "https://tenant.example/api/v2/organizations/org1";
                req_body := Sample.new_name;
                req_options := client_options Sample.options;
                req_retry := field Sample.options "retry" |})].
Proof.
  apply (proj2 (proj2 (proj2 (update_is_partial_update Sample.this
                                [Sample.org1; Sample.new_name; Sample.cb])))
           Sample.options Sample.baseUrl Sample.org1 Sample.new_name Sample.cb "org1");
    [reflexivity | reflexivity | reflexivity | reflexivity | discriminate | reflexivity].
Defined.

(** The construction from the sample options. *)
Lemma three_retry_decorated_clients_witness :
  OrganizationsManager Sample.options = three_clients Sample.options Sample.baseUrl
  /\ exists w',
       run Facade.spec (OrganizationsManager Sample.options) initial =
       (Normal Sample.this, w') /\
       built Auth0RestClient (events w') = 3 /\
       built RetryRestClient (events w') = 3 /\
       length (events w') = 6.
Proof.
  assert (Hobj : is_an_object Sample.options) by (split; [discriminate | reflexivity]).
  assert (Hne : Sample.baseUrl <> "") by discriminate.
  destruct (three_retry_decorated_clients Sample.options Sample.baseUrl
              Hobj eq_refl Hne) as (E & _ & Hrun & _).
  split; [exact E | exact Hrun].
Defined.

(** [get({ id: 'org1' })] and [getAll({})] on the sample manager, after some
    other call has already made a promise. *)
Lemma resolution_is_pure_witness :
  run Facade.spec (call "get" Sample.this [Sample.org1]) Sample.later =
  (Normal (VPromise 7),
   {| events :=
        [EInvoke (organizations Sample.this) "get" [Sample.org1];
         EPending (ByPromise 7)
           (Send {| req_method := GET;
                    req_url := "https://tenant.example/api/v2/organizations/org1";
                    req_body := VUndefined;
                    req_options := client_options Sample.options;
                    req_retry := field Sample.options "retry" |})];
      promises := 8 |})
  /\
  run Facade.spec (call "getAll" Sample.this [empty_object]) Sample.later =
  (Normal (VPromise 7),
   {| events :=
        [EInvoke (organizations Sample.this) "getAll" [empty_object];
         EPending (ByPromise 7)
           (Send {| req_method := GET;
                    req_url := "https://tenant.example/api/v2/organizations";
                    req_body := VUndefined;
                    req_options := client_options Sample.options;
                    req_retry := field Sample.options "retry" |})];
      promises := 8 |}).
Proof.
  apply (proj2 (proj2 (resolution_is_pure (organizations_template Sample.baseUrl)))
           Sample.options Sample.baseUrl "org1" Sample.later);
    [reflexivity | reflexivity | discriminate].
Defined.



(** A function with a base URL; an object without one and one with [null];
    objects whose base URL is the empty string and a number. *)
Lemma constructor_messages_witness :
  OrganizationsManager Sample2.callable_options =
  Throw (ArgumentError "Must provide manager options")
  /\ OrganizationsManager empty_object =
     Throw (ArgumentError "Must provide a base URL for the API")
  /\ OrganizationsManager (VObject [("baseUrl", VNull)]) =
     Throw (ArgumentError "Must provide a base URL for the API")
  /\ OrganizationsManager (VObject [("baseUrl", VString "")]) =
     Throw (ArgumentError "The provided base URL is invalid")
  /\ OrganizationsManager (VObject [("baseUrl", VNumber 8080%float)]) =
     Throw (ArgumentError "The provided base URL is invalid").
Proof.
  assert (Hobj : forall props, is_an_object (VObject props))
    by (intros props; split; [discriminate | reflexivity]).
  split; [|split; [|split; [|split]]].
  - apply (proj1 (constructor_messages Sample2.callable_options)).
    intros [_ H]. discriminate H.
  - apply (proj1 (proj2 (constructor_messages empty_object)) (Hobj _)).
    right. reflexivity.
  - apply (proj1 (proj2 (constructor_messages (VObject [("baseUrl", VNull)])))
             (Hobj _)).
    left. reflexivity.
  - apply (proj1 (proj2 (proj2 (constructor_messages
                                  (VObject [("baseUrl", VString "")])))) (Hobj _));
      try discriminate.
    intros (s & Hs & Hne). injection Hs as <-. congruence.
  - apply (proj1 (proj2 (proj2 (constructor_messages
                                  (VObject [("baseUrl", VNumber 8080%float)]))))
             (Hobj _));
      try discriminate.
    intros (s & Hs & _). discriminate Hs.
Defined.

(** [{ id: '' }], [{ id: 0 }], [{ id: 123 }], [{ id: {} }] and ['org1']. *)
Lemma addEnabledConnection_messages_witness :
  addEnabledConnection Sample.this [VObject [("id", VString "")]; Sample.data] =
  Throw (ArgumentError
           "The organizationId passed in params cannot be null or undefined")
  /\ addEnabledConnection Sample.this [VObject [("id", VNumber 0%float)]; Sample.data] =
     Throw (ArgumentError
              "The organizationId passed in params cannot be null or undefined")
  /\ addEnabledConnection Sample.this [VObject [("id", VNumber 123%float)]; Sample.data] =
     Throw (ArgumentError "The organization Id has to be a string")
  /\ addEnabledConnection Sample.this [VObject [("id", empty_object)]; Sample.data] =
     Throw (ArgumentError "The organization Id has to be a string")
  /\ addEnabledConnection Sample.this [VString "org1"; Sample.data] =
     Throw (ArgumentError
              "The organizationId passed in params cannot be null or undefined").
Proof.
  split; [|split; [|split; [|split]]].
  - apply (proj1 (addEnabledConnection_messages Sample.this
                    [VObject [("id", VString "")]; Sample.data])).
    reflexivity.
  - apply (proj1 (addEnabledConnection_messages Sample.this
                    [VObject [("id", VNumber 0%float)]; Sample.data])).
    reflexivity.
  - apply (proj1 (proj2 (addEnabledConnection_messages Sample.this
                           [VObject [("id", VNumber 123%float)]; Sample.data])));
      [reflexivity | simpl; discriminate].
  - apply (proj1 (proj2 (addEnabledConnection_messages Sample.this
                           [VObject [("id", empty_object)]; Sample.data])));
      [reflexivity | simpl; discriminate].
  - apply (proj2 (proj2 (addEnabledConnection_messages Sample.this
                           [VString "org1"; Sample.data])) "org1").
    reflexivity.
Defined.

(** Both identifiers missing; a number as organization ID beside a good
    connection ID; a good organization ID with no connection ID and with a
    number as connection ID. *)
Lemma removeEnabledConnection_messages_witness :
  removeEnabledConnection Sample.this [empty_object] =
  Throw (ArgumentError
           "The organization ID passed in params cannot be null or undefined")
  /\ removeEnabledConnection Sample.this
       [VObject [("id", VNumber 7%float); ("connection_id", VString "c1")]] =
     Throw (ArgumentError "The organization ID has to be a string")
  /\ removeEnabledConnection Sample.this [Sample.org1] =
     Throw (ArgumentError
              "The connection ID passed in params cannot be null or undefined")
  /\ removeEnabledConnection Sample.this
       [VObject [("id", VString "org1"); ("connection_id", VNumber 7%float)]] =
     Throw (ArgumentError "The connection ID has to be a string").
Proof.
  split; [|split; [|split]].
  - apply (proj1 (removeEnabledConnection_messages Sample.this [empty_object])).
    reflexivity.
  - apply (proj1 (proj2 (removeEnabledConnection_messages Sample.this
             [VObject [("id", VNumber 7%float); ("connection_id", VString "c1")]])));
      [reflexivity | simpl; discriminate].
  - apply (proj1 (proj2 (proj2 (removeEnabledConnection_messages Sample.this
                                  [Sample.org1]))));
      reflexivity.
  - apply (proj2 (proj2 (proj2 (removeEnabledConnection_messages Sample.this
             [VObject [("id", VString "org1"); ("connection_id", VNumber 7%float)]]))));
      [reflexivity | reflexivity | simpl; discriminate].
Defined.

(** Options with a [query] and a [timeout] of their own are constructed like
    the sample options. *)
Lemma construction_reads_four_fields_witness :
  OrganizationsManager Sample2.noisy_options = OrganizationsManager Sample.options.
Proof.
  apply (construction_reads_four_fields Sample2.noisy_options Sample.options);
    try reflexivity; split; (discriminate || reflexivity).
Defined.

(** The sample options against the collaborators of the specification. *)
Lemma construction_wires_three_decorations_witness :
  exists w1 w2 w',
    decorates Facade.spec Sample.options (organizations_template Sample.baseUrl)
      initial (organizations Sample.this) w1
    /\ decorates Facade.spec Sample.options (connections_template Sample.baseUrl)
         w1 (connections Sample.this) w2
    /\ decorates Facade.spec Sample.options (members_template Sample.baseUrl)
         w2 (members Sample.this) w'.
Proof.
  assert (Hobj : is_an_object Sample.options) by (split; [discriminate | reflexivity]).
  assert (Hne : Sample.baseUrl <> "") by discriminate.
  destruct (proj1 (construction_wires_three_decorations Facade.spec Sample.options
                     Sample.baseUrl initial
                     (snd (run Facade.spec (OrganizationsManager Sample.options) initial))
                     Sample.this Hobj eq_refl Hne) eq_refl)
    as (w1 & w2 & H).
  eexists w1, w2, _. exact H.
Defined.

(** Collaborators whose retry decorator refuses to be built: construction
    ends with the decorator's error after two constructor calls. *)
Lemma construction_passes_errors_on_witness :
  run Sample2.without_retry (OrganizationsManager Sample.options) initial =
  (Abrupt (ArgumentError "Must provide enabled boolean value"),
   {| events :=
        [ENew Auth0RestClient
           (templated_args Sample.options (organizations_template Sample.baseUrl));
         ENew RetryRestClient
           [Facade.auth0RestClient
              (VString (organizations_template Sample.baseUrl))
              (client_options Sample.options) VUndefined;
            field Sample.options "retry"]];
      promises := 0 |})
  /\ exists cls args w0,
       construct Sample2.without_retry cls args w0 =
       (Abrupt (ArgumentError "Must provide enabled boolean value"),
        snd (run Sample2.without_retry (OrganizationsManager Sample.options) initial)).
Proof.
  assert (Hobj : is_an_object Sample.options) by (split; [discriminate | reflexivity]).
  assert (Hne : Sample.baseUrl <> "") by discriminate.
  split; [reflexivity|].
  apply (proj1 (construction_passes_errors_on Sample2.without_retry Sample.options
                  Sample.baseUrl initial _ _ Hobj eq_refl Hne)).
  reflexivity.
Defined.

(** An object where the callback belongs. *)
Lemma callback_that_is_no_function_is_dropped_witness :
  addEnabledConnection Sample.this [Sample.org1; Sample.data; empty_object] =
  invoke (connections Sample.this) "create" [Sample.org1; Sample.data]
  /\ removeEnabledConnection Sample.this [Sample.org1_c1; VString "done"] =
     invoke (connections Sample.this) "delete" [Sample.org1_c1; empty_object].
Proof.
  split.
  - exact (proj1 (callback_that_is_no_function_is_dropped Sample.this
                    Sample.org1 Sample.data empty_object eq_refl)).
  - exact (proj2 (callback_that_is_no_function_is_dropped Sample.this
                    Sample.org1_c1 Sample.data (VString "done") eq_refl)).
Defined.

(** The call [addEnabledConnection({ id: 'org1' }, null, cb)]: the client
    gets [{}] for the data. *)
Lemma guarded_calls_reach_the_client_checked_witness :
  addEnabledConnection Sample.this [Sample.org1; VNull; Sample.cb] =
  Invoke (connections Sample.this) "create" [Sample.org1; empty_object; Sample.cb] Ret
  /\ identifier Sample.org1 "id" = true
  /\ truthy empty_object = true.
Proof.
  split; [reflexivity|].
  destruct (proj1 (guarded_calls_reach_the_client_checked Sample.this
                     [Sample.org1; VNull; Sample.cb]
                     (connections Sample.this) "create"
                     [Sample.org1; empty_object; Sample.cb] Ret) eq_refl)
    as (_ & _ & _ & _ & Hid & Hdata & _).
  split; [exact Hid | exact Hdata].
Defined.

(** [{ id: 'org1', connection_id: 'c1' }] removes, so it adds. *)
Lemma params_that_remove_also_add_witness :
  removeEnabledConnection Sample.this [Sample.org1_c1; Sample.cb] =
  invoke (connections Sample.this) "delete"
    [Sample.org1_c1; empty_object; Sample.cb]
  /\ forall e,
       addEnabledConnection Sample.this [Sample.org1_c1; Sample.data; Sample.cb]
       <> Throw e.
Proof.
  split; [reflexivity|].
  apply (params_that_remove_also_add Sample.this Sample.org1_c1 [Sample.cb]
           [Sample.data; Sample.cb]).
  intros e. discriminate.
Defined.

(** [removeEnabledConnection({ id: 'org1', connection_id: 'c1' }, data, cb)] *)
Lemma removeEnabledConnection_third_argument_is_lost_witness :
  removeEnabledConnection Sample.this [Sample.org1_c1; Sample.data; Sample.cb] =
  invoke (connections Sample.this) "delete" [Sample.org1_c1; empty_object].
Proof.
  apply (proj2 (removeEnabledConnection_third_argument_is_lost Sample.this
                  Sample.org1_c1 Sample.data Sample.cb eq_refl));
    reflexivity.
Defined.

(** The sample manager and the same manager without a members client. *)
Lemma members_client_is_not_used_witness :
  addEnabledConnection Sample.this [Sample.org1; Sample.data] =
  addEnabledConnection
    {| organizations := organizations Sample.this;
       connections := connections Sample.this;
       members := VUndefined |} [Sample.org1; Sample.data].
Proof.
  apply (members_client_is_not_used "addEnabledConnection" addEnabledConnection
           Sample.this
           {| organizations := organizations Sample.this;
              connections := connections Sample.this;
              members := VUndefined |});
    reflexivity.
Defined.
